(** * Restaurant recommendation pipeline (app.py): cleaning and ranking

    A shallow embedding of [load_and_clean_data], [categorize_cost],
    [filter_and_rank_restaurants] and of the submit / re-rank path of [main].

    Conventions of the embedding.
    - A pandas cell is a [value]: Python [None], a number, or a text.  Python
      floats and ints are idealised as exact rationals ([Q]) plus [NaN];
      every arithmetic result is stored reduced ([Qred]).
    - A DataFrame is a [frame]: the ordered column labels and the rows, each
      row a finite map from label to cell.  Column presence ([c in
      df.columns], [c in row]) is read from the labels.
    - What the interpreter and pandas do to texts and files (parsing a
      number, printing one, lowercasing, regular expression search, reading
      the CSV file) is not code of app.py: it is the interface [Runtime],
      and every definition and theorem is parametric in it.
      [ExampleRuntime.make] builds a small executable instance, used to
      evaluate the code on examples; it lowercases ASCII letters only.
    - A text is the sequence of its characters, each a code point below
      256: [read_csv] decodes the file under latin1, one character per byte.
    - A frame does not carry the dtype of its columns.  The dtype that
      [read_csv] gives a column is read off its cells ([read_as_numbers]),
      and with it the exception that [.str] raises in
      [load_and_clean_data] on a cuisines column that is not text
      ([cleaning_error]).  In [filter_and_rank_restaurants], which is given
      a frame of any origin, [.str] and the arithmetic of a column are
      modelled cell by cell, as pandas computes them on a column on which
      [.str] is accepted; a column that holds a text ([holds_text]) is such
      a column, for pandas keeps it with the object dtype.
    - A row has one cell per label.  [rename] can put two columns under one
      label (a source with both "Aggregate rating" and "rating"); the labels
      of a frame record this, its rows hold the renamed column only
      ([distinct_labels] says that no label occurs twice).  The exceptions
      that the second column causes in [load_and_clean_data] are part of
      [cleaning_error].
    - DataFrames are objects on a heap: [filter_and_rank_restaurants] works
      on references, so that aliasing ([filtered_df = df]) is visible. *)

From Stdlib Require Import QArith Qminmax ZArith Ascii String List Lia Lqa Sorted.
From stdpp Require Import gmap strings list fin_maps.

Open Scope string_scope.

(** ** Text helpers (Python [str] methods) *)

Module Str.

Definition lower_ascii (c : ascii) : ascii :=
  let n := nat_of_ascii c in
  if ((65 <=? n)%nat && (n <=? 90)%nat)%bool then ascii_of_nat (n + 32) else c.

(** [s.lower()] of a text whose cased characters are ASCII letters *)
Fixpoint lower (s : string) : string :=
  match s with
  | EmptyString => EmptyString
  | String c s' => String (lower_ascii c) (lower s')
  end.

(** [needle in s] *)
Fixpoint contains (needle s : string) : bool :=
  (String.prefix needle s ||
   match s with
   | EmptyString => false
   | String _ s' => contains needle s'
   end)%bool.

(** [s.split(sep)] for a one-character separator *)
Fixpoint split_on (sep : ascii) (s : string) : list string :=
  match s with
  | EmptyString => [EmptyString]
  | String c s' =>
      if Ascii.eqb c sep then EmptyString :: split_on sep s'
      else match split_on sep s' with
           | [] => [String c EmptyString]
           | w :: ws => String c w :: ws
           end
  end.

(** [sep.join(l)] *)
Fixpoint join (sep : string) (l : list string) : string :=
  match l with
  | [] => EmptyString
  | [s] => s
  | s :: l' => s ++ sep ++ join sep l'
  end.

(** [s.replace(c, '')] for a one-character [c] *)
Fixpoint remove_char (c : ascii) (s : string) : string :=
  match s with
  | EmptyString => EmptyString
  | String d s' => if Ascii.eqb d c then remove_char c s' else String d (remove_char c s')
  end.

(** [c.isspace()] for a character below 256: tab to carriage return, the
    four separators 28 to 31, the space, next line (133) and the no-break
    space (160). *)
Definition is_space (c : ascii) : bool :=
  let n := nat_of_ascii c in
  ((n =? 32)%nat || ((9 <=? n)%nat && (n <=? 13)%nat)
   || ((28 <=? n)%nat && (n <=? 31)%nat) || (n =? 133)%nat || (n =? 160)%nat)%bool.

Fixpoint lstrip (s : string) : string :=
  match s with
  | EmptyString => EmptyString
  | String c s' => if is_space c then lstrip s' else s
  end.

Fixpoint rstrip (s : string) : string :=
  match s with
  | EmptyString => EmptyString
  | String c s' =>
      match rstrip s' with
      | EmptyString => if is_space c then EmptyString else String c EmptyString
      | t => String c t
      end
  end.

(** [s.strip()] *)
Definition strip (s : string) : string := rstrip (lstrip s).

(** The characters that mean something to Python's [re]. *)
Definition metachars : string := ".^$*+?{}[]\|()".

Fixpoint mem_char (c : ascii) (s : string) : bool :=
  match s with
  | EmptyString => false
  | String d s' => (Ascii.eqb c d || mem_char c s')%bool
  end.

(** A text without any regular-expression metacharacter. *)
Fixpoint plain (s : string) : bool :=
  match s with
  | EmptyString => true
  | String c s' => (negb (mem_char c metachars) && plain s')%bool
  end.

End Str.

(** ** Cells *)

Inductive num : Type :=
| NaN
| Fin (q : Q).

Inductive value : Type :=
| VNone
| VNum (n : num)
| VStr (s : string).

(** [pd.isnull(x)] *)
Definition isnull (v : value) : bool :=
  match v with
  | VNone | VNum NaN => true
  | _ => false
  end.

Definition notnull (v : value) : bool := negb (isnull v).

(** Equality of two cells as [drop_duplicates] sees it: missing cells are
    all alike, numbers are compared by value. *)
Definition value_eqb (a b : value) : bool :=
  match a, b with
  | VNum (Fin p), VNum (Fin q) => Qeq_bool p q
  | VStr s, VStr t => String.eqb s t
  | _, _ => (isnull a && isnull b)%bool
  end.

Definition num_map2 (f : Q -> Q -> Q) (a b : num) : num :=
  match a, b with
  | Fin p, Fin q => Fin (Qred (f p q))
  | _, _ => NaN
  end.

(** ** Exceptions and results *)

Inductive exn_kind : Type :=
| UnicodeDecodeError
| KeyError
| TypeError
| ValueError
| AttributeError
| ReError
| OtherException.

Record exn : Type := mkExn { exn_kind_of : exn_kind; exn_msg : string }.

Inductive outcome (A : Type) : Type :=
| Return (a : A)
| Raise (e : exn).
Arguments Return {A} a.
Arguments Raise {A} e.

Definition obind {A B} (m : outcome A) (k : A -> outcome B) : outcome B :=
  match m with
  | Return a => k a
  | Raise e => Raise e
  end.

Fixpoint for_each {A B} (f : A -> outcome B) (l : list A) : outcome (list B) :=
  match l with
  | [] => Return []
  | a :: l' =>
      obind (f a) (fun b => obind (for_each f l') (fun bs => Return (b :: bs)))
  end.

(** ** DataFrames *)

Record frame : Type := mkFrame {
  columns : list string;
  rows : list (gmap string value)
}.

(** [pd.DataFrame()] *)
Definition empty_frame : frame := mkFrame [] [].

(** [c in df.columns] *)
Definition has_column (c : string) (df : frame) : bool :=
  bool_decide (c ∈ columns df).

(** The cell of row [r] under label [c]; a row of a frame has a cell under
    every label of the frame. *)
Definition cell (c : string) (r : gmap string value) : value :=
  default (VNum NaN) (r !! c).

(** [df[c]]: the column as a list of cells, [KeyError] without the label. *)
Definition get_column (c : string) (df : frame) : outcome (list value) :=
  if has_column c df then Return (cell c <$> rows df)
  else Raise (mkExn KeyError c).

(** [df[c] = f(row)] computed row by row: the label is appended when new,
    the cells are overwritten otherwise. *)
Definition set_column (c : string) (f : gmap string value -> value) (df : frame) : frame :=
  mkFrame (if has_column c df then columns df else columns df ++ [c])
          ((fun r => <[c := f r]> r) <$> rows df).

(** [df[c] = vs] for a column of cells given in row order. *)
Definition assign_column (c : string) (vs : list value) (df : frame) : frame :=
  mkFrame (if has_column c df then columns df else columns df ++ [c])
          (zip_with (fun r v => <[c := v]> r) (rows df) vs).

(** [df.rename(columns={old: new})].  The labels are renamed as pandas
    renames them.  When [new] is a label of the frame already, there are two
    columns of that label afterwards; a row holds the renamed one only. *)
Definition rename_column (old new : string) (df : frame) : frame :=
  mkFrame ((fun c => if String.eqb c old then new else c) <$> columns df)
          ((fun r => match r !! old with
                     | Some v => <[new := v]> (delete old r)
                     | None => r
                     end) <$> rows df).

(** [df.drop(columns=cs)] for labels that are all present *)
Definition drop_columns (cs : list string) (df : frame) : frame :=
  mkFrame (filter (fun c => c ∉ cs) (columns df))
          ((fun r => foldr delete r cs) <$> rows df).

Definition key_eqb (k1 k2 : list value) : bool :=
  (Nat.eqb (length k1) (length k2) && forallb (fun p => value_eqb p.1 p.2) (zip k1 k2))%bool.

Fixpoint keep_first (key : gmap string value -> list value)
    (seen : list (list value)) (rs : list (gmap string value)) : list (gmap string value) :=
  match rs with
  | [] => []
  | r :: rs' =>
      if existsb (key_eqb (key r)) seen then keep_first key seen rs'
      else r :: keep_first key (key r :: seen) rs'
  end.

(** [df.drop_duplicates(subset=cs)]: of the rows that agree on [cs] the
    first one stays. *)
Definition drop_duplicates (cs : list string) (df : frame) : frame :=
  mkFrame (columns df) (keep_first (fun r => (fun c => cell c r) <$> cs) [] (rows df)).

Definition count_notnull (cs : list string) (r : gmap string value) : nat :=
  length (filter (fun c => notnull (cell c r) = true) cs).

(** [df.dropna(thresh=len(df.columns) * 0.7)]: a row stays when it has at
    least that many cells that are not null. *)
Definition dropna_thresh (df : frame) : frame :=
  mkFrame (columns df)
          (filter (fun r => Qle_bool (inject_Z (Z.of_nat (length (columns df))) * 0.7)
                                     (inject_Z (Z.of_nat (count_notnull (columns df) r))) = true)
                  (rows df)).

(** ** What the interpreter and pandas provide *)

Class Runtime : Type := {
  (** [pd.read_csv(path, encoding=enc)]: the table, or the exception raised *)
  read_csv : string -> string -> outcome frame;
  (** [pd.to_numeric(s, errors='coerce')] on a text cell *)
  to_numeric : string -> num;
  (** [float(s)] on a text; [None] is [ValueError] *)
  py_float : string -> option num;
  (** [str(x)] of a number *)
  repr_num : num -> string;
  (** [f"{x:.1f}"] of a number *)
  format_1f : num -> string;
  (** [s.lower()] *)
  py_lower : string -> string;
  (** [re.compile(pat)] succeeds *)
  re_compiles : string -> bool;
  (** [re.search(pat, s) is not None] *)
  re_search : string -> string -> bool
}.

(** What the user interface and the file system see of a run. *)
Inductive event : Type :=
| ReadCsv (path encoding : string)
| StError (msg : string)
| StWarning (missing available : list string).

(** ** Numbers of a column *)

Definition num_ltb (a : num) (b : Q) : bool :=
  match a with
  | Fin q => negb (Qle_bool b q)
  | NaN => false
  end.

Fixpoint insert_sorted (x : Q) (l : list Q) : list Q :=
  match l with
  | [] => [x]
  | y :: l' => if Qle_bool x y then x :: l else y :: insert_sorted x l'
  end.

Definition sort_Q (l : list Q) : list Q := foldr insert_sorted [] l.

Definition finite_of (ns : list num) : list Q :=
  omap (fun n => match n with Fin q => Some q | NaN => None end) ns.

(** [Series.median()]: the middle of the sorted cells that are not NaN, the
    mean of the two middle ones when their count is even. *)
Definition median (ns : list num) : num :=
  let s := sort_Q (finite_of ns) in
  let n := length s in
  match s with
  | [] => NaN
  | q0 :: _ =>
      if Nat.even n
      then Fin (Qred ((nth (n / 2 - 1) s q0 + nth (n / 2) s q0) / 2))
      else Fin (Qred (nth (n / 2) s q0))
  end.

Definition is_nan (n : num) : bool :=
  match n with NaN => true | Fin _ => false end.

(** [Series.fillna(d)] on a number *)
Definition fillna_num (d : num) (n : num) : num :=
  match n with NaN => d | Fin _ => n end.

(** [Series.clip(lo, hi)] on a number *)
Definition clip (lo hi : Q) (n : num) : num :=
  match n with
  | Fin q => Fin (Qmin (Qmax q lo) hi)
  | NaN => NaN
  end.

(** ** Data ingestion and preprocessing *)

Section Cleaning.
Context `{RT : Runtime}.

Definition column_map : list (string * list string) :=
  [ ("name", ["Restaurant Name"; "restaurant_name"; "name"]);
    ("location", ["City"; "Locality"; "Locality Verbose"; "Address"; "location"]);
    ("rating", ["Aggregate rating"; "rate"; "rating"; "Rating"]);
    ("cost", ["Average Cost for two"; "cost_for_two"; "approx_cost"; "cost"; "average_cost"]);
    ("cuisines", ["Cuisines"; "cuisine"; "Cuisine"]);
    ("votes", ["Votes"; "votes"; "vote_count"]) ].

(** The inner [for possible_col in possible_cols: ... break]; [None] is
    the [else] of the loop. *)
Fixpoint rename_first (standard_col : string) (possible_cols : list string)
    (df : frame) : option frame :=
  match possible_cols with
  | [] => None
  | possible_col :: rest =>
      if has_column possible_col df
      then Some (rename_column possible_col standard_col df)
      else rename_first standard_col rest df
  end.

(** The outer loop: the renamed frame and [missing_columns]. *)
Definition rename_columns (df : frame) : frame * list string :=
  foldl (fun acc entry =>
           match rename_first entry.1 entry.2 acc.1 with
           | Some df' => (df', acc.2)
           | None => (acc.1, (acc.2 ++ [entry.1])%list)
           end)
        (df, []) column_map.

Definition columns_to_drop : list string :=
  [ "Restaurant ID"; "Country Code"; "Currency"; "Has Table booking";
    "Has Online delivery"; "Is delivering now"; "Switch to order menu";
    "Price range"; "Rating color"; "Rating text" ].

(** [str(x)] of a cell, as [astype(str)] applies it. *)
Definition py_str (v : value) : string :=
  match v with
  | VNone => "None"
  | VNum n => repr_num n
  | VStr s => s
  end.

(** [pd.to_numeric(x, errors='coerce')] of a cell *)
Definition to_numeric_cell (v : value) : num :=
  match v with
  | VNone => NaN
  | VNum n => n
  | VStr s => to_numeric s
  end.

Definition as_num (v : value) : num :=
  match v with
  | VNum n => n
  | _ => NaN
  end.

Inductive float_error : Type := FloatValueError | FloatTypeError.

(** [float(x)] *)
Definition float_of (x : value) : float_error + num :=
  match x with
  | VNone => inl FloatTypeError
  | VNum n => inr n
  | VStr s => match py_float s with
              | Some n => inr n
              | None => inl FloatValueError
              end
  end.

Definition categorize_cost (cost : value) : string :=
  match float_of cost with
  | inr cost =>
      if num_ltb cost 300 then "low"
      else if num_ltb cost 700 then "medium"
      else "high"
  | inl (FloatValueError | FloatTypeError) => "medium"
  end.

(** [lambda x: x.split(',')[0].strip() if isinstance(x, str) else 'unknown'] *)
Definition primary_cuisine_of (x : value) : value :=
  match x with
  | VStr s => VStr (Str.strip (hd EmptyString (Str.split_on "," s)))
  | _ => VStr "unknown"
  end.

(** [Series.str.lower()] on a cell of a column on which [.str] is
    accepted: a cell that is not a text becomes NaN. *)
Definition str_lower (v : value) : value :=
  match v with
  | VStr s => VStr (py_lower s)
  | _ => VNum NaN
  end.

(** [Series.fillna(d)] on a cell *)
Definition fillna (d : value) (v : value) : value :=
  if isnull v then d else v.

Definition handle_rating (df : frame) : frame :=
  if has_column "rating" df
  then set_column "rating"
         (fun r => VNum (fillna_num (Fin 3) (to_numeric_cell (cell "rating" r)))) df
  else set_column "rating" (fun _ => VNum (Fin 3)) df.

Definition handle_cost (df : frame) : frame :=
  if has_column "cost" df
  then
    let df1 := set_column "cost" (fun r => VStr (Str.remove_char "," (py_str (cell "cost" r)))) df in
    let df2 := set_column "cost" (fun r => VNum (to_numeric_cell (cell "cost" r))) df1 in
    let costs := (fun r => as_num (cell "cost" r)) <$> rows df2 in
    let cost_median := if negb (forallb is_nan costs) then median costs else Fin 500 in
    set_column "cost" (fun r => VNum (fillna_num cost_median (as_num (cell "cost" r)))) df2
  else set_column "cost" (fun _ => VNum (Fin 500)) df.

Definition handle_location (df : frame) : frame :=
  if negb (has_column "location" df)
  then set_column "location" (fun _ => VStr "Unknown") df
  else df.

Definition handle_cuisines (df : frame) : frame :=
  if has_column "cuisines" df
  then set_column "cuisines" (fun r => str_lower (fillna (VStr "Unknown") (cell "cuisines" r))) df
  else set_column "cuisines" (fun _ => VStr "Unknown") df.

Definition handle_votes (df : frame) : frame :=
  if negb (has_column "votes" df)
  then set_column "votes" (fun _ => VNum (Fin 0)) df
  else df.

Definition feature_engineering (df : frame) : frame :=
  let df1 := set_column "cost_category" (fun r => VStr (categorize_cost (cell "cost" r))) df in
  let df2 := set_column "primary_cuisine" (fun r => primary_cuisine_of (cell "cuisines" r)) df1 in
  set_column "normalized_rating" (fun r => VNum (clip 1 5 (as_num (cell "rating" r)))) df2.

Definition remove_duplicates (df : frame) : frame :=
  let duplicate_cols := filter (fun col => col ∈ columns df) ["name"; "location"] in
  match duplicate_cols with
  | [] => df
  | _ => drop_duplicates duplicate_cols df
  end.

(** The body of [load_and_clean_data] once the table is read, with the
    warning it shows: the table that the steps compute when none of them
    raises ([cleaning_error] below says when one does). *)
Definition clean_table (df0 : frame) : frame * list event :=
  let available_columns := columns df0 in
  let '(df, missing_columns) := rename_columns df0 in
  let warnings :=
    match missing_columns with
    | [] => []
    | _ => [StWarning missing_columns available_columns]
    end in
  let df := remove_duplicates df in
  let df := drop_columns (filter (fun col => col ∈ columns df) columns_to_drop) df in
  let df := dropna_thresh df in
  let df := handle_rating df in
  let df := handle_cost df in
  let df := handle_location df in
  let df := handle_cuisines df in
  let df := handle_votes df in
  (feature_engineering df, warnings).

(** The source after its columns are renamed. *)
Definition normalized (df0 : frame) : frame := (rename_columns df0).1.

(** How many columns carry the label [c].  [df[c]] is a column when it is
    one; when [rename] has put two columns under [c] it is a DataFrame. *)
Definition label_count (c : string) (df : frame) : nat :=
  length (filter (fun c' => c' = c) (columns df)).

(** The dtype that [read_csv] gives column [c]: numbers when the table has
    rows and every cell of the column is a number or empty, else text
    (object). *)
Definition read_as_numbers (c : string) (df : frame) : bool :=
  (negb (Nat.eqb (length (rows df)) 0)
   && forallb (fun r => match cell c r with VNum _ => true | _ => false end) (rows df))%bool.

(** The exception of the first step that is given two columns where it
    expects one:
    - [pd.to_numeric(df['rating'], ...)] is a [TypeError] when
      [df['rating']] is a DataFrame;
    - [df['cost'].astype(str).str] and [df['cuisines'].fillna(...).str] are
      an [AttributeError] when [df[...]] is a DataFrame. *)
Definition two_columns_error (renamed : frame) : option exn :=
  if (2 <=? label_count "rating" renamed)%nat
  then Some (mkExn TypeError "arg must be a list, tuple, 1-d array, or Series")
  else if (2 <=? label_count "cost" renamed)%nat
  then Some (mkExn AttributeError "'DataFrame' object has no attribute 'str'")
  else if (2 <=? label_count "cuisines" renamed)%nat
  then Some (mkExn AttributeError "'DataFrame' object has no attribute 'str'")
  else None.

(** [df['cuisines'].fillna('Unknown').str] is an [AttributeError] when the
    column is not text: it was read as numbers and [fillna] has put no text
    into it, none of its cells being null. *)
Definition not_text_error (renamed df : frame) : option exn :=
  if (has_column "cuisines" df && read_as_numbers "cuisines" renamed
      && forallb (fun r => notnull (cell "cuisines" r)) (rows df))%bool
  then Some (mkExn AttributeError "Can only use .str accessor with string values!")
  else None.

(** The table of which the values are handled: the source renamed, without
    its duplicates, its irrelevant columns and its sparse rows. *)
Definition prepared (df0 : frame) : frame :=
  let df := remove_duplicates (normalized df0) in
  let df := drop_columns (filter (fun col => col ∈ columns df) columns_to_drop) df in
  dropna_thresh df.

(** The exception that leaves the body, when a step raises. *)
Definition cleaning_error (df0 : frame) : option exn :=
  match two_columns_error (normalized df0) with
  | Some e => Some e
  | None => not_text_error (normalized df0) (prepared df0)
  end.

(** The body once the table is read: the cleaned table, or the exception
    of the step that raises; the warning is shown before either. *)
Definition clean_or_raise (df : frame) : outcome (option frame) * list event :=
  let '(df', ev) := clean_table df in
  match cleaning_error df with
  | Some e => (Raise e, ev)
  | None => (Return (Some df'), ev)
  end.

(** [load_and_clean_data(file_path)]: what the call returns ([None] is
    Python's [None]) or the exception that leaves it, and what it did.  Only
    the reads are inside the [try]. *)
Definition load_and_clean_data (file_path : string) : outcome (option frame) * list event :=
  match read_csv file_path "latin1" with
  | Return df =>
      let '(result, ev) := clean_or_raise df in
      (result, ReadCsv file_path "latin1" :: ev)
  | Raise e =>
      match exn_kind_of e with
      | UnicodeDecodeError =>
          match read_csv file_path "iso-8859-1" with
          | Return df =>
              let '(result, ev) := clean_or_raise df in
              (result, ReadCsv file_path "latin1" :: ReadCsv file_path "iso-8859-1" :: ev)
          | Raise e' =>
              (Raise e', [ReadCsv file_path "latin1"; ReadCsv file_path "iso-8859-1"])
          end
      | _ =>
          (Return None,
           [ReadCsv file_path "latin1"; StError ("Error loading file: " ++ exn_msg e)])
      end
  end.

End Cleaning.

(** ** The heap of DataFrame objects *)

(** A Python variable that holds a DataFrame holds a reference to it. *)
Abbreviation ref := nat (only parsing).
Abbreviation heap := (list frame) (only parsing).

(** A computation reads and updates the heap and returns or raises. *)
Definition M (A : Type) : Type := heap -> outcome A * heap.

#[global] Instance M_ret : MRet M := fun A a h => (Return a, h).
#[global] Instance M_bind : MBind M := fun A B k m h =>
  match m h with
  | (Return a, h') => k a h'
  | (Raise e, h') => (Raise e, h')
  end.

Definition lift {A} (o : outcome A) : M A := fun h => (o, h).

(** A new object. *)
Definition new_frame (f : frame) : M ref := fun h => (Return (length h), (h ++ [f])%list).

(** The object behind a reference. *)
Definition deref (l : ref) : M frame := fun h =>
  match h !! l with
  | Some f => (Return f, h)
  | None => (Raise (mkExn OtherException "no such object"), h)
  end.

(** An update of the object in place. *)
Definition update (l : ref) (g : frame -> frame) : M unit := fun h =>
  match h !! l with
  | Some f => (Return tt, <[l := g f]> h)
  | None => (Raise (mkExn OtherException "no such object"), h)
  end.

(** ** Recommendation engine *)

(** [df[condition]]: a new frame with the rows on which the condition
    holds.  A condition is computed once, on the unfiltered frame, and is
    aligned with the rows by their index; it is modelled as the predicate it
    evaluates on each row. *)
Definition select (condition : gmap string value -> bool) (df : frame) : frame :=
  mkFrame (columns df) (List.filter condition (rows df)).

Definition num_geb (a b : num) : bool :=
  match a, b with
  | Fin p, Fin q => Qle_bool q p
  | Fin _, NaN => true
  | NaN, NaN => true
  | NaN, Fin _ => false
  end.

Definition score_of (r : gmap string value) : num :=
  match cell "score" r with
  | VNum n => n
  | _ => NaN
  end.

Fixpoint insert_desc (r : gmap string value) (l : list (gmap string value)) :
    list (gmap string value) :=
  match l with
  | [] => [r]
  | y :: l' => if num_geb (score_of r) (score_of y) then r :: l else y :: insert_desc r l'
  end.

(** [df.sort_values(by='score', ascending=False)]: a new frame, largest
    score first, NaN last; rows of equal score are kept in their order
    (pandas leaves the order of ties to the sorting algorithm). *)
Definition sort_values_desc (df : frame) : frame :=
  mkFrame (columns df) (foldr insert_desc [] (rows df)).

(** [df.head(n)] *)
Definition head (n : Z) (df : frame) : frame :=
  mkFrame (columns df)
          (if (0 <=? n)%Z then take (Z.to_nat n) (rows df)
           else take (length (rows df) - Z.to_nat (- n)) (rows df)).

Section Engine.
Context `{RT : Runtime}.

(** [Series.str.contains(pat, na=False)] on a cell *)
Definition str_contains (pat : string) (v : value) : bool :=
  match v with
  | VStr s => re_search pat s
  | _ => false
  end.

(** [Series == text] on a cell *)
Definition str_equals (t : string) (v : value) : bool :=
  match v with
  | VStr s => String.eqb s t
  | _ => false
  end.

(** The pattern of [str.contains] is compiled before any cell is looked
    at. *)
Definition contains_condition (col pat : string) :
    outcome (gmap string value -> bool) :=
  if re_compiles pat
  then Return (fun r => str_contains pat (str_lower (cell col r)))
  else Raise (mkExn ReError pat).

(** The list [conditions] of the filter, for the lowercased [cuisines]
    and [location]. *)
Definition build_conditions (df : frame) (cuisines : list string)
    (budget location : string) : outcome (list (gmap string value -> bool)) :=
  obind (if has_column "primary_cuisine" df
         then obind (contains_condition "primary_cuisine" (Str.join "|" cuisines))
                    (fun c => Return [c])
         else Return [])
    (fun c1 =>
  let c2 := if has_column "cost_category" df
            then [fun r => str_equals (py_lower budget) (str_lower (cell "cost_category" r))]
            else [] in
  obind (if has_column "location" df
         then obind (contains_condition "location" location) (fun c => Return [c])
         else Return [])
    (fun c3 => Return (c1 ++ c2 ++ c3)%list)).

(** [for condition in conditions: filtered_df = filtered_df[condition]] *)
Fixpoint apply_conditions (conditions : list (gmap string value -> bool))
    (filtered_df : ref) : M ref :=
  match conditions with
  | [] => mret filtered_df
  | condition :: rest =>
      f ← deref filtered_df;
      filtered_df ← new_frame (select condition f);
      apply_conditions rest filtered_df
  end.

(** [column * w] on a cell *)
Definition scale (w : Q) (v : value) : outcome num :=
  match v with
  | VNum n => Return (num_map2 Qmult n (Fin w))
  | VNone => Raise (mkExn TypeError "unsupported operand type(s) for *: 'NoneType' and 'float'")
  | VStr _ => Raise (mkExn TypeError "can't multiply sequence by non-int of type 'float'")
  end.

(** [lambda x: min(x, 1000) / 1000 if pd.notnull(x) else 0] *)
Definition vote_signal (x : value) : outcome num :=
  if notnull x
  then match x with
       | VNum n => Return (num_map2 Qdiv (num_map2 Qmin n (Fin 1000)) (Fin 1000))
       | _ => Raise (mkExn TypeError "'<' not supported between instances of 'int' and 'str'")
       end
  else Return (Fin 0).

(** [df['normalized_rating'] * w_rating + df['votes'].apply(...) * w_votes] *)
Definition weighted_score (w_rating w_votes : Q) (df : frame) : outcome (list value) :=
  obind (get_column "normalized_rating" df) (fun nr =>
  obind (for_each (scale w_rating) nr) (fun a =>
  obind (get_column "votes" df) (fun votes =>
  obind (for_each vote_signal votes) (fun vs =>
  Return (zip_with (fun x y => VNum (num_map2 Qplus x (num_map2 Qmult y (Fin w_votes)))) a vs))))).

(** The two branches of the ranking strategy. *)
Definition score_column (strategy : string) (df : frame) : outcome (list value) :=
  if String.eqb strategy "A: Rating-heavy"
  then weighted_score 0.8 0.2 df
  else weighted_score 0.5 0.5 df.

(** [f"{x:.1f}"] on a cell *)
Definition format_cell_1f (v : value) : outcome string :=
  match v with
  | VNum n => Return (format_1f n)
  | VNone => Raise (mkExn TypeError "unsupported format string passed to NoneType.__format__")
  | VStr _ => Raise (mkExn ValueError "Unknown format code 'f' for object of type 'str'")
  end.

(** The explanation of one row of [top_restaurants]. *)
Definition explanation (top_restaurants : frame) (cuisines : list string)
    (budget strategy : string) (row : gmap string value) : outcome value :=
  obind (if has_column "rating" top_restaurants
         then obind (if has_column "normalized_rating" top_restaurants
                     then format_cell_1f (cell "normalized_rating" row)
                     else Raise (mkExn KeyError "normalized_rating"))
                (fun rating =>
              obind (if has_column "votes" top_restaurants
                     then Return (cell "votes" row)
                     else Raise (mkExn KeyError "votes"))
                (fun votes =>
              Return (", and " ++ rating ++ " rating from "
                      ++ py_str (if notnull votes then votes else VNum (Fin 0))
                      ++ " votes")))
         else Return "")
    (fun rated =>
  Return (VStr ("Matched on " ++ Str.join ", " cuisines ++ " cuisine"
                ++ (if has_column "cost_category" top_restaurants
                    then ", " ++ budget ++ " budget" else "")
                ++ rated
                ++ " (Strategy: " ++ strategy ++ ")"))).

Definition filter_and_rank_restaurants (df : option ref) (cuisines : list string)
    (budget location strategy : string) (top_n : Z) : M ref :=
  match df with
  | None => new_frame empty_frame
  | Some df =>
      let cuisines := py_lower <$> cuisines in
      let location := py_lower location in
      f ← deref df;
      conditions ← lift (build_conditions f cuisines budget location);
      filtered_df ← match conditions with
                    | _ :: _ => apply_conditions conditions df
                    | [] => mret df
                    end;
      f ← deref filtered_df;
      score ← lift (score_column strategy f);
      _ ← update filtered_df (assign_column "score" score);
      f ← deref filtered_df;
      top_restaurants ← new_frame (head top_n (sort_values_desc f));
      t ← deref top_restaurants;
      explanations ← lift (for_each (explanation t cuisines budget strategy) (rows t));
      _ ← update top_restaurants (assign_column "explanation" explanations);
      mret top_restaurants
  end.

(** *** The session of [main]: first ranking and re-ranking *)

Record preferences : Type := mkPreferences {
  pref_cuisines : list string;
  pref_budget : string;
  pref_location : string;
  pref_strategy : string
}.

Record session_state : Type := mkSession {
  st_recommendations : option ref;
  st_preferences : option preferences;
  st_filtered_df : option ref
}.

(** The submit branch of [main] once the data is loaded and all three
    preferences are given: rank, then keep the filtered frame for
    re-ranking.  [main] leaves [top_n] at its default, 10. *)
Definition main_submit (df : ref) (cuisines : list string)
    (budget location strategy : string) (top_n : Z) : M session_state :=
  recommendations ← filter_and_rank_restaurants (Some df) cuisines budget location strategy top_n;
  f ← deref df;
  conditions ← lift (build_conditions f (py_lower <$> cuisines) budget (py_lower location));
  filtered_df ← apply_conditions conditions df;
  mret (mkSession (Some recommendations)
                  (Some (mkPreferences cuisines budget location strategy))
                  (Some filtered_df)).

(** The re-rank form of [main]. *)
Definition main_rerank (st : session_state) (new_strategy : string) (top_n : Z) :
    M session_state :=
  match st_recommendations st, st_preferences st, st_filtered_df st with
  | Some _, Some p, Some _ =>
      recommendations ← filter_and_rank_restaurants (st_filtered_df st)
                          (pref_cuisines p) (pref_budget p) (pref_location p)
                          new_strategy top_n;
      mret (mkSession (Some recommendations)
                      (Some (mkPreferences (pref_cuisines p) (pref_budget p)
                                           (pref_location p) new_strategy))
                      (st_filtered_df st))
  | _, _, _ => mret st
  end.

End Engine.

(** ** An executable runtime for examples

    It agrees with Python on plain decimal numerals ([-12], [3.50]) and on
    patterns made of plain texts separated by [|]; it is used only to
    evaluate the code on concrete tables. *)

Module ExampleRuntime.

Definition digit_of (c : ascii) : option Z :=
  let n := nat_of_ascii c in
  if ((48 <=? n)%nat && (n <=? 57)%nat)%bool then Some (Z.of_nat (n - 48)) else None.

(** Digits after the sign: the value so far, the power of ten under it,
    whether the point was met and whether a digit was. *)
Fixpoint parse_unsigned (s : string) (acc : Z) (den : positive) (dot digit : bool) :
    option Q :=
  match s with
  | EmptyString => if digit then Some (Qred (acc # den)) else None
  | String c s' =>
      match digit_of c with
      | Some d => parse_unsigned s' (10 * acc + d) (if dot then 10 * den else den) dot true
      | None =>
          if (Ascii.eqb c "." && negb dot)%bool then parse_unsigned s' acc den true digit
          else None
      end
  end.

Definition parse_decimal (s : string) : option Q :=
  match s with
  | String "-" s' => option_map Qopp (parse_unsigned s' 0 1 false false)
  | _ => parse_unsigned s 0 1 false false
  end.

Definition digit_char (d : Z) : ascii := ascii_of_nat (48 + Z.to_nat d).

Fixpoint print_nat (fuel : nat) (n : Z) (acc : string) : string :=
  match fuel with
  | O => acc
  | S fuel' =>
      let acc' := String (digit_char (n mod 10)) acc in
      if (n <? 10)%Z then acc' else print_nat fuel' (n / 10) acc'
  end.

Definition print_Z (z : Z) : string :=
  if (z <? 0)%Z then String "-" (print_nat (Z.to_nat (- z) + 1) (- z) "")
  else print_nat (Z.to_nat z + 1) z "".

(** Digits of [r / d] after the point, at most [fuel] of them. *)
Fixpoint print_fraction (fuel : nat) (r d : Z) : string :=
  match fuel with
  | O => ""
  | S fuel' =>
      if (r =? 0)%Z then ""
      else String (digit_char (10 * r / d)) (print_fraction fuel' ((10 * r) mod d) d)
  end.

Definition print_Q (q : Q) : string :=
  let q := Qred q in
  let n := Qnum q in
  let d := Zpos (Qden q) in
  if (d =? 1)%Z then print_Z n
  else (if (n <? 0)%Z then "-" else "")
       ++ print_Z (Z.abs n / d) ++ "." ++ print_fraction 17 (Z.abs n mod d) d.

(** One digit after the point, ties to the even digit. *)
Definition print_1f (q : Q) : string :=
  let q := Qred q in
  let t := (2 * 10 * Z.abs (Qnum q))%Z in
  let d := (2 * Zpos (Qden q))%Z in
  let lo := (t / d)%Z in
  let r := (t mod d)%Z in
  let tenths :=
    if (2 * r <? d)%Z then lo
    else if (d <? 2 * r)%Z then (lo + 1)%Z
    else if Z.even lo then lo else (lo + 1)%Z in
  (if (Qnum q <? 0)%Z then "-" else "")
  ++ print_Z (tenths / 10) ++ "." ++ print_Z (tenths mod 10).

Definition alternatives (pat : string) : list string := Str.split_on "|" pat.

Definition make (files : string -> string -> outcome frame) : Runtime := {|
  read_csv := files;
  to_numeric := fun s => match parse_decimal s with Some q => Fin q | None => NaN end;
  py_float := fun s => option_map Fin (parse_decimal s);
  repr_num := fun n => match n with NaN => "nan" | Fin q => print_Q q end;
  format_1f := fun n => match n with NaN => "nan" | Fin q => print_1f q end;
  py_lower := Str.lower;
  re_compiles := fun pat => forallb Str.plain (alternatives pat);
  re_search := fun pat s => existsb (fun a => Str.contains a s) (alternatives pat)
|}.

(** Every path is missing. *)
Definition no_files : string -> string -> outcome frame :=
  fun path _ => Raise (mkExn OtherException ("No such file or directory: " ++ path)).

End ExampleRuntime.

(** A row from its cells, for examples. *)
Definition row_of (cells : list (string * value)) : gmap string value :=
  list_to_map cells.

(** * Vocabulary of the statements

    The notions in which the properties below are stated, and the example
    tables on which they are tried. *)

Open Scope list_scope.

Section Vocabulary.
Context `{RT : Runtime}.

Definition is_read (ev : event) : bool :=
  match ev with ReadCsv _ _ => true | _ => false end.

(** The score of one row with a numeric rating and numeric or missing
    votes. *)
Definition row_score (w_rating w_votes : Q) (r : gmap string value) : value :=
  VNum (num_map2 Qplus (num_map2 Qmult (as_num (cell "normalized_rating" r)) (Fin w_rating))
          (num_map2 Qmult
             (if notnull (cell "votes" r)
              then num_map2 Qdiv (num_map2 Qmin (as_num (cell "votes" r)) (Fin 1000)) (Fin 1000)
              else Fin 0)
             (Fin w_votes))).

Definition scorable (r : gmap string value) : Prop :=
  (exists n, cell "normalized_rating" r = VNum n) /\
  (isnull (cell "votes" r) = true \/ exists n, cell "votes" r = VNum n).

(** The vote signal as the specification words it. *)
Definition vote_signal_of (votes : value) : Q :=
  match votes with
  | VNum (Fin v) => Qmin v 1000 / 1000
  | _ => 0
  end.

(** The frames that the filter loop creates, in order. *)
Fixpoint filter_steps (conditions : list (gmap string value -> bool)) (f : frame) : list frame :=
  match conditions with
  | [] => []
  | condition :: rest => select condition f :: filter_steps rest (select condition f)
  end.

(** The frame that the filter loop ends with. *)
Definition select_all (conditions : list (gmap string value -> bool)) (f : frame) : frame :=
  foldl (fun g condition => select condition g) f conditions.

(** Where it lives: the input itself when there is no condition. *)
Definition filtered_ref (conditions : list (gmap string value -> bool)) (df : ref) (h : heap) : ref :=
  match conditions with
  | [] => df
  | _ :: _ => length h + length conditions - 1
  end.

(** A table with one record of normalised rating 5 and 2000 votes. *)
Definition five_stars : frame :=
  mkFrame ["normalized_rating"; "votes"]
          [row_of [("normalized_rating", VNum (Fin 5)); ("votes", VNum (Fin 2000))]].

(** The score that the specification gives a record under the weights
    [w_rating] and [w_votes]. *)
Definition has_score (w_rating w_votes : Q) (r : gmap string value) (s : value) : Prop :=
  exists nr q,
    cell "normalized_rating" r = VNum (Fin nr) /\
    s = VNum (Fin q) /\
    (q == w_rating * nr + w_votes * vote_signal_of (cell "votes" r))%Q.

Definition numeric_record (r : gmap string value) : Prop :=
  (exists nr, cell "normalized_rating" r = VNum (Fin nr)) /\
  (isnull (cell "votes" r) = true \/ exists v, cell "votes" r = VNum (Fin v)).

(** A table with a record whose votes are missing. *)
Definition two_records : frame :=
  mkFrame ["normalized_rating"; "votes"]
          [row_of [("normalized_rating", VNum (Fin 4)); ("votes", VNum NaN)];
           row_of [("normalized_rating", VNum (Fin 3)); ("votes", VNum (Fin 500))]].

(** A frame without its explanations. *)
Definition forget_explanation (f : frame) : frame :=
  mkFrame (columns f) (delete "explanation" <$> rows f).

(** Two runs end alike: both return the same value or both raise the same
    exception. *)
Definition same_outcome {A} (a b : outcome A) : Prop :=
  match a, b with
  | Return x, Return y => x = y
  | Raise e1, Raise e2 => e1 = e2
  | _, _ => False
  end.

(** Both return, lists of one length, or both raise the same exception. *)
Definition same_shape {A} (a b : outcome (list A)) : Prop :=
  match a, b with
  | Return x, Return y => length x = length y
  | Raise e1, Raise e2 => e1 = e2
  | _, _ => False
  end.

(** A table that has none of the three columns the filter looks at. *)
Definition bare_ratings : frame :=
  mkFrame ["normalized_rating"; "votes"]
          [row_of [("normalized_rating", VNum (Fin 4)); ("votes", VNum (Fin 100))]].

(** The frame [filtered_df] that the filter of
    [filter_and_rank_restaurants] ends with ([filter_and_rank_run]). *)
Definition filter_stage (f : frame) (cuisines : list string)
    (budget location : string) : outcome frame :=
  obind (build_conditions f (py_lower <$> cuisines) budget (py_lower location))
        (fun conditions => Return (select_all conditions f)).

(** The filter as the specification words it: a record stays when every
    condition whose column exists holds; the cuisine condition is that some
    requested cuisine occurs in the primary cuisine, the budget condition
    that the cost category is the budget, the location condition that the
    requested location occurs in the location, all three regardless of
    case. *)
Definition claimed_retained (f : frame) (cuisines : list string)
    (budget location : string) (r : gmap string value) : bool :=
  ((if has_column "primary_cuisine" f
    then match cell "primary_cuisine" r with
         | VStr s => existsb (fun c => Str.contains (py_lower c) (py_lower s)) cuisines
         | _ => false
         end
    else true)
   && (if has_column "cost_category" f
       then match cell "cost_category" r with
            | VStr s => String.eqb (py_lower s) (py_lower budget)
            | _ => false
            end
       else true)
   && (if has_column "location" f
       then match cell "location" r with
            | VStr s => Str.contains (py_lower location) (py_lower s)
            | _ => false
            end
       else true))%bool.

(** What Python's [re] does with a pattern that is a list of plain texts
    separated by [|]: it compiles, and it is found in a text exactly when
    one of the plain texts occurs in it. *)
Definition regex_on_plain_texts (RT : Runtime) : Prop :=
  forall (alts : list string) (s : string),
    alts <> [] ->
    Forall (fun a => Str.plain a = true) alts ->
    re_compiles (Str.join "|" alts) = true /\
    re_search (Str.join "|" alts) s = existsb (fun a => Str.contains a s) alts.

(** A table with one Thai restaurant. *)
Definition thai_place : frame :=
  mkFrame ["primary_cuisine"] [row_of [("primary_cuisine", VStr "thai")]].

(** A table with a restaurant in Bangalore. *)
Definition bangalore_place : frame :=
  mkFrame ["primary_cuisine"; "cost_category"; "location"]
          [row_of [("primary_cuisine", VStr "italian"); ("cost_category", VStr "medium");
                   ("location", VStr "Bangalore Central")];
           row_of [("primary_cuisine", VStr "thai"); ("cost_category", VStr "medium");
                   ("location", VStr "Bangalore Central")]].

(** Every row of [f] has a cell under [c], and the cell satisfies [P]. *)
Definition all_cells (c : string) (P : value -> Prop) (f : frame) : Prop :=
  Forall (fun r => exists v, r !! c = Some v /\ P v) (rows f).

Definition is_number (v : value) : Prop := exists q, v = VNum (Fin q).



(** A source with a city and cuisines, and no name. *)
Definition city_listing : frame :=
  mkFrame ["City"; "Cuisines"]
          [row_of [("City", VStr "Delhi"); ("Cuisines", VStr "North Indian, Chinese")]].

(** Two different restaurants of one city, in a source without names. *)
Definition same_city : frame :=
  mkFrame ["City"; "Cuisines"]
          [row_of [("City", VStr "Delhi"); ("Cuisines", VStr "Indian")];
           row_of [("City", VStr "Delhi"); ("Cuisines", VStr "Chinese")]].

(** A source without cuisines. *)
Definition no_cuisines : frame :=
  mkFrame ["Restaurant Name"; "City"]
          [row_of [("Restaurant Name", VStr "Saffron"); ("City", VStr "Pune")]].

(** A source with all six fields. *)
Definition sample_source : frame :=
  mkFrame ["Restaurant Name"; "City"; "Cuisines"; "Votes"; "Aggregate rating";
           "Average Cost for two"]
    [ row_of [("Restaurant Name", VStr "Trattoria"); ("City", VStr "Bangalore Central");
              ("Cuisines", VStr "Italian, Pizza"); ("Votes", VNum (Fin 2000));
              ("Aggregate rating", VNum (Fin 4.5)); ("Average Cost for two", VStr "1,200")];
      row_of [("Restaurant Name", VStr "Osteria"); ("City", VStr "Bangalore");
              ("Cuisines", VStr "Italian"); ("Votes", VNum (Fin 10));
              ("Aggregate rating", VStr "NEW"); ("Average Cost for two", VNum (Fin 900))] ].

(** A source that calls its ratings by two of the names that the
    renaming knows. *)
Definition two_ratings : frame :=
  mkFrame ["Aggregate rating"; "rating"]
          [row_of [("Aggregate rating", VNum (Fin 4.1)); ("rating", VNum (Fin 4))]].

(** A file system in which every path holds the table [df]. *)
Definition always (df : frame) : string -> string -> outcome frame :=
  fun _ _ => Return df.

(** No two columns of the frame have the same label. *)
Definition distinct_labels (f : frame) : bool := bool_decide (NoDup (columns f)).

(** The column holds a text.  pandas keeps such a column with the object
    dtype, and accepts [.str] on it. *)
Definition holds_text (c : string) (f : frame) : bool :=
  existsb (fun r => match cell c r with VStr _ => true | _ => false end) (rows f).

(** Each of the three columns that the filter looks at, when the frame
    has it, holds a text. *)
Definition filter_columns_are_text (f : frame) : bool :=
  forallb (fun c => implb (has_column c f) (holds_text c f))
          ["primary_cuisine"; "cost_category"; "location"].



(** A source with a restaurant of which only the name and the cuisines are
    known well. *)
Definition half_known : frame :=
  mkFrame ["Restaurant Name"; "City"; "Cuisines"; "Votes"; "Aggregate rating";
           "Average Cost for two"; "Longitude"; "Latitude"]
    [ row_of [("Restaurant Name", VStr "Saffron"); ("City", VNum NaN);
              ("Cuisines", VStr "Indian"); ("Votes", VNum NaN);
              ("Aggregate rating", VNum (Fin 4)); ("Average Cost for two", VNum (Fin 400));
              ("Longitude", VNum (Fin 73.8)); ("Latitude", VNum (Fin 18.5))];
      row_of [("Restaurant Name", VStr "Basil"); ("City", VStr "Pune");
              ("Cuisines", VNum NaN); ("Votes", VNum (Fin 12));
              ("Aggregate rating", VNum (Fin 3.5)); ("Average Cost for two", VNum (Fin 650));
              ("Longitude", VNum (Fin 73.9)); ("Latitude", VNum (Fin 18.6))] ].

(** A file that no encoding decodes. *)
Definition undecodable : string -> string -> outcome frame :=
  fun _ _ => Raise (mkExn UnicodeDecodeError "invalid continuation byte").

(** Scores in descending order, NaN last. *)
Definition descending (l : list (gmap string value)) : Prop :=
  StronglySorted (fun a b => num_geb (score_of a) (score_of b) = true) l.

(** What is known of a record once ratings, costs and the derived columns
    are set: its rating and cost are numbers, its normalised rating is its
    rating clamped to 1..5, its cost category is the category of its cost. *)
Definition derived_from_fields (r : gmap string value) : Prop :=
  exists rating cost : Q,
    r !! "rating" = Some (VNum (Fin rating)) /\
    r !! "cost" = Some (VNum (Fin cost)) /\
    r !! "normalized_rating" = Some (VNum (Fin (Qmin (Qmax rating 1) 5))) /\
    r !! "cost_category" = Some (VStr (categorize_cost (VNum (Fin cost)))).



(** A table whose votes are a text. *)
Definition text_votes : frame :=
  mkFrame ["normalized_rating"; "votes"]
          [row_of [("normalized_rating", VNum (Fin 4)); ("votes", VStr "1,200")]].

End Vocabulary.

(** * Properties *)

(** ** Cost categories *)

Lemma num_ltb_lt (q b : Q) : num_ltb (Fin q) b = true <-> (q < b)%Q.
Proof.
  unfold num_ltb. rewrite negb_true_iff. split.
  - intros H. apply Qnot_le_lt. intros Hle.
    apply Qle_bool_iff in Hle. congruence.
  - intros H. destruct (Qle_bool b q) eqn:E; [|reflexivity].
    apply Qle_bool_iff in E. exfalso. apply (Qlt_not_le q b); assumption.
Qed.

Lemma num_ltb_ge (q b : Q) : num_ltb (Fin q) b = false <-> (b <= q)%Q.
Proof.
  unfold num_ltb. rewrite negb_false_iff. apply Qle_bool_iff.
Qed.

Section CostCategory.
Context `{RT : Runtime}.

Lemma categorize_cost_low (q : Q) : (q < 300)%Q -> categorize_cost (VNum (Fin q)) = "low".
Proof.
  intros H. unfold categorize_cost. cbn [float_of].
  apply num_ltb_lt in H. rewrite H. reflexivity.
Qed.

Lemma categorize_cost_medium (q : Q) :
  (300 <= q)%Q -> (q < 700)%Q -> categorize_cost (VNum (Fin q)) = "medium".
Proof.
  intros H1 H2. unfold categorize_cost. cbn [float_of].
  apply num_ltb_ge in H1. apply num_ltb_lt in H2. rewrite H1, H2. reflexivity.
Qed.

Lemma categorize_cost_high (q : Q) : (700 <= q)%Q -> categorize_cost (VNum (Fin q)) = "high".
Proof.
  intros H. unfold categorize_cost. cbn [float_of].
  assert (H3 : (300 <= q)%Q) by (eapply Qle_trans; [|exact H]; discriminate).
  apply num_ltb_ge in H. apply num_ltb_ge in H3. rewrite H, H3. reflexivity.
Qed.

(** A cost that is NaN falls through both comparisons. *)
Lemma categorize_cost_nan : categorize_cost (VNum NaN) = "high".
Proof. reflexivity. Qed.

(** C8. [categorize_cost] is a function of the cost alone: a number below
    300 is "low", one from 300 up to but not including 700 is "medium", one
    from 700 on is "high" (so 299.99 is low, 300 medium, 699.99 medium, 700
    high); a text that [float] reads is categorised as the number it reads;
    a text that [float] rejects and [None] are "medium". *)
Theorem C8_categorize_cost_thresholds :
  (forall q : Q, (q < 300)%Q -> categorize_cost (VNum (Fin q)) = "low") /\
  (forall q : Q, (300 <= q)%Q -> (q < 700)%Q -> categorize_cost (VNum (Fin q)) = "medium") /\
  (forall q : Q, (700 <= q)%Q -> categorize_cost (VNum (Fin q)) = "high") /\
  categorize_cost (VNum (Fin 299.99)) = "low" /\
  categorize_cost (VNum (Fin 300)) = "medium" /\
  categorize_cost (VNum (Fin 699.99)) = "medium" /\
  categorize_cost (VNum (Fin 700)) = "high" /\
  (forall (s : string) (n : num),
      py_float s = Some n -> categorize_cost (VStr s) = categorize_cost (VNum n)) /\
  (forall s : string, py_float s = None -> categorize_cost (VStr s) = "medium") /\
  categorize_cost VNone = "medium".
Proof.
  split; [exact categorize_cost_low|].
  split; [exact categorize_cost_medium|].
  split; [exact categorize_cost_high|].
  repeat split; try reflexivity.
  - intros s n H. unfold categorize_cost. cbn [float_of]. rewrite H. reflexivity.
  - intros s H. unfold categorize_cost. cbn [float_of]. rewrite H. reflexivity.
Qed.

End CostCategory.

Lemma C8_categorize_cost_thresholds_witness :
  let RT := ExampleRuntime.make ExampleRuntime.no_files in
  categorize_cost (VNum (Fin 120)) = "low" /\
  categorize_cost (VNum (Fin 450)) = "medium" /\
  categorize_cost (VNum (Fin 1200)) = "high" /\
  categorize_cost (VStr "250") = categorize_cost (VNum (Fin 250)) /\
  categorize_cost (VStr "n/a") = "medium".
Proof.
  intros RT.
  pose proof (@C8_categorize_cost_thresholds RT) as (Hl & Hm & Hh & _ & _ & _ & _ & Hs & He & _).
  split; [apply Hl; reflexivity|].
  split; [apply Hm; [discriminate|reflexivity]|].
  split; [apply Hh; discriminate|].
  split; [apply Hs; reflexivity|].
  apply He; reflexivity.
Defined.

(** ** Loading *)

Lemma Return_inj {A} (a b : A) : Return a = Return b -> a = b.
Proof. intros H. injection H. auto. Qed.

Lemma Some_inj {A} (a b : A) : Some a = Some b -> a = b.
Proof. intros H. injection H. auto. Qed.

Section Loading.
Context `{RT : Runtime}.

Lemma clean_or_raise_no_read (df : frame) :
  List.filter is_read (clean_or_raise df).2 = [].
Proof.
  unfold clean_or_raise, clean_table. destruct (rename_columns df) as [d missing].
  destruct (cleaning_error df); destruct missing; reflexivity.
Qed.

(** What the body gives once the table is read. *)
Lemma clean_or_raise_fst (df : frame) :
  (clean_or_raise df).1
  = match cleaning_error df with
    | Some e => Raise e
    | None => Return (Some (clean_table df).1)
    end.
Proof.
  unfold clean_or_raise. destruct (clean_table df) as [d ev].
  destruct (cleaning_error df); reflexivity.
Qed.

(** A call that returns a table has read it, under one of the two
    encodings, and no step of the body has raised on it. *)
Lemma load_returns_cleaned (file_path : string) (out : frame) :
  (load_and_clean_data file_path).1 = Return (Some out) ->
  exists df0,
    (read_csv file_path "latin1" = Return df0 \/
     read_csv file_path "iso-8859-1" = Return df0) /\
    cleaning_error df0 = None /\
    out = (clean_table df0).1.
Proof.
  unfold load_and_clean_data.
  destruct (read_csv file_path "latin1") as [df|e] eqn:E1.
  - pose proof (clean_or_raise_fst df) as H.
    destruct (clean_or_raise df) as [result ev]. cbn in *. subst result.
    destruct (cleaning_error df) eqn:Ec; [discriminate|].
    intros Hr. apply Return_inj, Some_inj in Hr. exists df. auto.
  - destruct (exn_kind_of e); try discriminate.
    destruct (read_csv file_path "iso-8859-1") as [df|e'] eqn:E2; [|discriminate].
    pose proof (clean_or_raise_fst df) as H.
    destruct (clean_or_raise df) as [result ev]. cbn in *. subst result.
    destruct (cleaning_error df) eqn:Ec; [discriminate|].
    intros Hr. apply Return_inj, Some_inj in Hr. exists df. auto.
Qed.

Lemma label_count_distinct (c : string) (f : frame) :
  distinct_labels f = true -> label_count c f <= 1.
Proof.
  unfold distinct_labels, label_count. intros H. apply bool_decide_eq_true in H.
  induction H as [|a l Ha Hl IH]; [cbn; lia|].
  rewrite filter_cons. destruct (decide (a = c)) as [->|Hne]; [|exact IH].
  cbn [length]. assert (E : filter (fun c' => c' = c) l = []); [|rewrite E; cbn; lia].
  destruct (filter _ l) as [|x l'] eqn:E'; [reflexivity|]. exfalso.
  assert (Hx : x ∈ filter (fun c' => c' = c) l) by (rewrite E'; left).
  apply list_elem_of_filter in Hx as [-> Hx]. contradiction.
Qed.

(** With distinct labels every step is given the one column it expects. *)
Lemma distinct_labels_cleaning_error (df : frame) :
  distinct_labels (normalized df) = true ->
  cleaning_error df = not_text_error (normalized df) (prepared df).
Proof.
  intros H. unfold cleaning_error, two_columns_error.
  pose proof (label_count_distinct "rating" _ H) as H1.
  pose proof (label_count_distinct "cost" _ H) as H2.
  pose proof (label_count_distinct "cuisines" _ H) as H3.
  destruct (Nat.leb_spec 2 (label_count "rating" (normalized df))); [lia|].
  destruct (Nat.leb_spec 2 (label_count "cost" (normalized df))); [lia|].
  destruct (Nat.leb_spec 2 (label_count "cuisines" (normalized df))); [lia|].
  reflexivity.
Qed.

(** Two columns for one field make the body raise. *)
Lemma two_columns_cleaning_error (df : frame) (e : exn) :
  two_columns_error (normalized df) = Some e -> cleaning_error df = Some e.
Proof. unfold cleaning_error. intros ->. reflexivity. Qed.

(** C5 (as amended). When the first read fails to decode, the file is read
    once more, under the other encoding, and only then can the call fail;
    when that read fails too, the call ends with its exception (which
    carries the message), nothing but the two reads has happened and no
    table is returned; when it succeeds, the call goes on with the table as
    it does after a first read that succeeds.  A first read that fails in
    another way is not retried: it is reported with [st.error], and the call
    returns [None]. *)
Theorem C5_load_retries_once_then_fails (file_path : string) :
  (forall e, read_csv file_path "latin1" = Raise e ->
             exn_kind_of e = UnicodeDecodeError ->
     List.filter is_read (load_and_clean_data file_path).2
       = [ReadCsv file_path "latin1"; ReadCsv file_path "iso-8859-1"] /\
     (forall e', read_csv file_path "iso-8859-1" = Raise e' ->
        load_and_clean_data file_path
          = (Raise e', [ReadCsv file_path "latin1"; ReadCsv file_path "iso-8859-1"])) /\
     (forall df, read_csv file_path "iso-8859-1" = Return df ->
        (load_and_clean_data file_path).1 = (clean_or_raise df).1)) /\
  (forall e, read_csv file_path "latin1" = Raise e ->
             exn_kind_of e <> UnicodeDecodeError ->
     load_and_clean_data file_path
     = (Return None,
        [ReadCsv file_path "latin1"; StError ("Error loading file: " ++ exn_msg e)])) /\
  (forall df, read_csv file_path "latin1" = Return df ->
     List.filter is_read (load_and_clean_data file_path).2 = [ReadCsv file_path "latin1"] /\
     (load_and_clean_data file_path).1 = (clean_or_raise df).1).
Proof.
  split; [|split].
  - intros e He Hk. unfold load_and_clean_data. rewrite He, Hk.
    split; [|split].
    + destruct (read_csv file_path "iso-8859-1") as [df|e']; [|reflexivity].
      pose proof (clean_or_raise_no_read df) as Hn.
      destruct (clean_or_raise df) as [result ev]. cbn in *. rewrite Hn. reflexivity.
    + intros e' He'. rewrite He'. reflexivity.
    + intros df Hdf. rewrite Hdf. destruct (clean_or_raise df) as [result ev]. reflexivity.
  - intros e He Hk. unfold load_and_clean_data. rewrite He.
    destruct (exn_kind_of e); try reflexivity. contradiction.
  - intros df Hdf. unfold load_and_clean_data. rewrite Hdf.
    pose proof (clean_or_raise_no_read df) as Hn.
    destruct (clean_or_raise df) as [result ev]. cbn in *. rewrite Hn. auto.
Qed.

(** Python knows latin1 and iso-8859-1 as one codec.  When the second read
    does what the first did, a first read that fails to decode ends the call
    with that exception, after the two reads. *)
Lemma retry_under_same_codec (file_path : string) (e : exn) :
  read_csv file_path "iso-8859-1" = read_csv file_path "latin1" ->
  read_csv file_path "latin1" = Raise e ->
  exn_kind_of e = UnicodeDecodeError ->
  load_and_clean_data file_path
  = (Raise e, [ReadCsv file_path "latin1"; ReadCsv file_path "iso-8859-1"]).
Proof.
  intros Hsame He Hk. unfold load_and_clean_data. rewrite Hsame, He, Hk. reflexivity.
Qed.

(** After a read that succeeds the call can still end with an exception:
    when the renaming leaves two columns for the rating, the cost or the
    cuisines; and, the labels being distinct, when the cuisines column is not
    text.  Otherwise it returns the cleaned table. *)
Lemma cleaning_after_read (df : frame) :
  (forall e, two_columns_error (normalized df) = Some e ->
             (clean_or_raise df).1 = Raise e) /\
  (distinct_labels (normalized df) = true ->
   (clean_or_raise df).1
   = match not_text_error (normalized df) (prepared df) with
     | Some e => Raise e
     | None => Return (Some (clean_table df).1)
     end).
Proof.
  rewrite clean_or_raise_fst. split.
  - intros e He. rewrite (two_columns_cleaning_error df e He). reflexivity.
  - intros Hd. rewrite (distinct_labels_cleaning_error df Hd). reflexivity.
Qed.

End Loading.

(** ** Scoring *)

Lemma for_each_length {A B} (f : A -> outcome B) (l : list A) (bs : list B) :
  for_each f l = Return bs -> length bs = length l.
Proof.
  revert bs. induction l as [|a l IH]; intros bs H; cbn in H.
  - inversion H. reflexivity.
  - destruct (f a) as [b|e]; cbn in H; [|discriminate].
    destruct (for_each f l) as [bs'|e]; cbn in H; [|discriminate].
    inversion H. cbn. f_equal. apply IH. reflexivity.
Qed.

Lemma for_each_total {A B} (f : A -> outcome B) (g : A -> B) (l : list A) :
  Forall (fun a => f a = Return (g a)) l -> for_each f l = Return (g <$> l).
Proof.
  induction 1 as [|a l Ha _ IH]; cbn; [reflexivity|].
  rewrite Ha, IH. reflexivity.
Qed.

Section Scoring.
Context `{RT : Runtime}.

Lemma score_column_other (strategy : string) (df : frame) :
  strategy <> "A: Rating-heavy" ->
  score_column strategy df = weighted_score 0.5 0.5 df.
Proof.
  intros H. unfold score_column.
  destruct (String.eqb_spec strategy "A: Rating-heavy"); [contradiction|reflexivity].
Qed.

Lemma weighted_score_length (w1 w2 : Q) (df : frame) (sc : list value) :
  weighted_score w1 w2 df = Return sc -> length sc = length (rows df).
Proof.
  unfold weighted_score, get_column. intros H.
  destruct (has_column "normalized_rating" df); [|discriminate]. cbn in H.
  destruct (for_each (scale w1) _) as [a|] eqn:Ea; [|discriminate]. cbn in H.
  destruct (has_column "votes" df); [|discriminate]. cbn in H.
  destruct (for_each vote_signal _) as [vs|] eqn:Ev; [|discriminate]. cbn in H.
  inversion H; subst. apply for_each_length in Ea, Ev.
  rewrite length_fmap in Ea, Ev. rewrite length_zip_with. lia.
Qed.

Lemma score_column_length (strategy : string) (df : frame) (sc : list value) :
  score_column strategy df = Return sc -> length sc = length (rows df).
Proof.
  unfold score_column. destruct (String.eqb _ _); apply weighted_score_length.
Qed.

Lemma weighted_score_scorable (w1 w2 : Q) (df : frame) :
  has_column "normalized_rating" df = true ->
  has_column "votes" df = true ->
  Forall scorable (rows df) ->
  weighted_score w1 w2 df = Return (row_score w1 w2 <$> rows df).
Proof.
  intros H1 H2 Hrows. unfold weighted_score, get_column. rewrite H1, H2. cbn.
  rewrite (for_each_total (scale w1)
             (fun v => num_map2 Qmult (as_num v) (Fin w1))).
  2:{ apply Forall_fmap. eapply Forall_impl; [exact Hrows|].
      intros r [[n Hn] _]. cbn. rewrite Hn. reflexivity. }
  cbn.
  rewrite (for_each_total vote_signal
             (fun v => if notnull v
                       then num_map2 Qdiv (num_map2 Qmin (as_num v) (Fin 1000)) (Fin 1000)
                       else Fin 0)).
  2:{ apply Forall_fmap. eapply Forall_impl; [exact Hrows|].
      intros r [_ [Hnull|[n Hn]]]; cbn; unfold vote_signal, notnull.
      - rewrite Hnull. reflexivity.
      - rewrite Hn. destruct (isnull (VNum n)); reflexivity. }
  cbn. f_equal.
  induction (rows df) as [|r l IH]; cbn; [reflexivity|].
  f_equal. apply IH. inversion Hrows; assumption.
Qed.

Lemma row_score_formula (w1 w2 nr : Q) (r : gmap string value) :
  cell "normalized_rating" r = VNum (Fin nr) ->
  (isnull (cell "votes" r) = true \/ exists v, cell "votes" r = VNum (Fin v)) ->
  exists q, row_score w1 w2 r = VNum (Fin q) /\
            (q == w1 * nr + w2 * vote_signal_of (cell "votes" r))%Q.
Proof.
  intros Hnr Hv. unfold row_score. rewrite Hnr. cbn [as_num num_map2].
  destruct Hv as [Hnull|[v Hv]].
  - unfold notnull. rewrite Hnull. cbn [negb num_map2].
    eexists. split; [reflexivity|].
    assert (Hz : vote_signal_of (cell "votes" r) = 0%Q).
    { destruct (cell "votes" r) as [|[|]|]; cbn in Hnull; try discriminate; reflexivity. }
    rewrite Hz, !Qred_correct. ring.
  - rewrite Hv. cbn. eexists. split; [reflexivity|].
    rewrite !Qred_correct. ring.
Qed.

End Scoring.

(** ** The engine on the heap *)

Lemma bind_run {A B} (m : M A) (k : A -> M B) (h : heap) :
  (m ≫= k) h = match m h with
               | (Return a, h') => k a h'
               | (Raise e, h') => (Raise e, h')
               end.
Proof. reflexivity. Qed.

Lemma deref_run (l : ref) (f : frame) (h : heap) :
  h !! l = Some f -> deref l h = (Return f, h).
Proof. intros H. unfold deref. rewrite H. reflexivity. Qed.

Lemma update_run (l : ref) (g : frame -> frame) (f : frame) (h : heap) :
  h !! l = Some f -> update l g h = (Return tt, <[l := g f]> h).
Proof. intros H. unfold update. rewrite H. reflexivity. Qed.

Lemma lookup_new (h : heap) (f : frame) : (h ++ [f]) !! length h = Some f.
Proof. rewrite lookup_app_r by lia. rewrite Nat.sub_diag. reflexivity. Qed.

Lemma insert_new (h : heap) (f g : frame) : <[length h := g]> (h ++ [f]) = h ++ [g].
Proof. rewrite insert_app_r_alt by lia. rewrite Nat.sub_diag. reflexivity. Qed.

Section EngineRun.
Context `{RT : Runtime}.

Lemma apply_conditions_run (conditions : list (gmap string value -> bool)) :
  forall (cur : ref) (f : frame) (h : heap),
    h !! cur = Some f ->
    apply_conditions conditions cur h
      = (Return (filtered_ref conditions cur h), h ++ filter_steps conditions f).
Proof.
  induction conditions as [|c cs IH]; intros cur f h Hcur.
  - cbn. rewrite app_nil_r. reflexivity.
  - cbn [apply_conditions]. rewrite bind_run, (deref_run _ _ _ Hcur).
    rewrite bind_run. unfold new_frame at 1.
    rewrite (IH (length h) (select c f) (h ++ [select c f]) (lookup_new h _)).
    cbn [filter_steps]. rewrite <- app_assoc. cbn [app].
    f_equal. f_equal. unfold filtered_ref. rewrite length_app. cbn [length].
    destruct cs; cbn [length]; lia.
Qed.

Lemma filtered_lookup (conditions : list (gmap string value -> bool)) :
  forall (cur : ref) (f : frame) (h : heap),
    h !! cur = Some f ->
    (h ++ filter_steps conditions f) !! filtered_ref conditions cur h
      = Some (select_all conditions f).
Proof.
  induction conditions as [|c cs IH]; intros cur f h Hcur.
  - cbn. rewrite app_nil_r. exact Hcur.
  - cbn [filter_steps select_all foldl].
    specialize (IH (length h) (select c f) (h ++ [select c f]) (lookup_new h _)).
    rewrite <- app_assoc in IH. cbn [app] in IH.
    unfold select_all in IH. rewrite <- IH. f_equal.
    unfold filtered_ref. rewrite length_app. cbn [length].
    destruct cs; cbn [length]; lia.
Qed.

Lemma filter_and_rank_run (h : heap) (df : ref) (f : frame)
    (cuisines : list string) (budget location strategy : string) (top_n : Z) :
  h !! df = Some f ->
  filter_and_rank_restaurants (Some df) cuisines budget location strategy top_n h =
  match build_conditions f (py_lower <$> cuisines) budget (py_lower location) with
  | Raise e => (Raise e, h)
  | Return conditions =>
      let h1 := h ++ filter_steps conditions f in
      let fl := filtered_ref conditions df h in
      let ff := select_all conditions f in
      match score_column strategy ff with
      | Raise e => (Raise e, h1)
      | Return score =>
          let scored := assign_column "score" score ff in
          let h2 := <[fl := scored]> h1 in
          let t := head top_n (sort_values_desc scored) in
          match for_each (explanation t (py_lower <$> cuisines) budget strategy) (rows t) with
          | Raise e => (Raise e, h2 ++ [t])
          | Return ex => (Return (length h2), h2 ++ [assign_column "explanation" ex t])
          end
      end
  end.
Proof.
  intros Hdf. unfold filter_and_rank_restaurants.
  rewrite bind_run, (deref_run _ _ _ Hdf). rewrite bind_run. unfold lift at 1.
  destruct (build_conditions f _ budget _) as [conditions|e]; [|reflexivity].
  cbn zeta.
  pose proof (filtered_lookup conditions df f h Hdf) as Hfl.
  rewrite bind_run.
  assert (Hstep : match conditions with
                  | _ :: _ => apply_conditions conditions df
                  | [] => mret df
                  end h = (Return (filtered_ref conditions df h), h ++ filter_steps conditions f)).
  { destruct conditions as [|c cs].
    - cbn. rewrite app_nil_r. reflexivity.
    - apply apply_conditions_run. exact Hdf. }
  rewrite Hstep. clear Hstep.
  rewrite bind_run, (deref_run _ _ _ Hfl). rewrite bind_run. unfold lift at 1.
  destruct (score_column strategy _) as [score|e]; [|reflexivity].
  rewrite bind_run, (update_run _ _ _ _ Hfl).
  assert (Hfl2 : (<[filtered_ref conditions df h := assign_column "score" score (select_all conditions f)]>
                   (h ++ filter_steps conditions f)) !! filtered_ref conditions df h
                 = Some (assign_column "score" score (select_all conditions f))).
  { apply list_lookup_insert_eq. eapply lookup_lt_Some. exact Hfl. }
  rewrite bind_run, (deref_run _ _ _ Hfl2).
  rewrite bind_run. unfold new_frame at 1.
  rewrite bind_run, (deref_run _ _ _ (lookup_new _ _)).
  rewrite bind_run. unfold lift at 1.
  destruct (for_each _ _) as [ex|e]; [|reflexivity].
  rewrite bind_run, (update_run _ _ _ _ (lookup_new _ _)).
  rewrite insert_new. reflexivity.
Qed.

End EngineRun.

(** ** Frames: labels and cells under an assignment *)

Lemma has_column_true (c : string) (df : frame) : has_column c df = true <-> c ∈ columns df.
Proof. unfold has_column. apply bool_decide_eq_true. Qed.

Lemma has_column_false (c : string) (df : frame) : has_column c df = false <-> c ∉ columns df.
Proof. unfold has_column. apply bool_decide_eq_false. Qed.

Lemma has_column_ext (c : string) (f g : frame) :
  columns f = columns g -> has_column c f = has_column c g.
Proof. unfold has_column. intros ->. reflexivity. Qed.

Lemma has_column_added (c c' : string) (df : frame) :
  has_column c (mkFrame (if has_column c' df then columns df else columns df ++ [c']) (rows df))
  = (has_column c df || String.eqb c c')%bool.
Proof.
  apply eq_true_iff_eq. rewrite orb_true_iff, !has_column_true. cbn [columns].
  destruct (String.eqb_spec c c') as [->|Hne].
  - destruct (has_column c' df) eqn:E.
    + apply has_column_true in E. tauto.
    + rewrite elem_of_app, list_elem_of_singleton. tauto.
  - destruct (has_column c' df).
    + intuition discriminate.
    + rewrite elem_of_app, list_elem_of_singleton. intuition discriminate.
Qed.

Lemma has_column_assign (c c' : string) (vs : list value) (df : frame) :
  has_column c (assign_column c' vs df) = (has_column c df || String.eqb c c')%bool.
Proof. rewrite <- has_column_added. unfold assign_column. apply has_column_ext. reflexivity. Qed.

Lemma has_column_set (c c' : string) (g : gmap string value -> value) (df : frame) :
  has_column c (set_column c' g df) = (has_column c df || String.eqb c c')%bool.
Proof. rewrite <- has_column_added. unfold set_column. apply has_column_ext. reflexivity. Qed.

Lemma cell_insert_ne (c c' : string) (v : value) (r : gmap string value) :
  c <> c' -> cell c (<[c' := v]> r) = cell c r.
Proof. intros H. unfold cell. rewrite lookup_insert_ne by congruence. reflexivity. Qed.

Lemma zip_with_insert_twice (c : string) (rs : list (gmap string value)) (vs : list value) :
  zip_with (fun r v => <[c := v]> r) (zip_with (fun r v => <[c := v]> r) rs vs) vs
  = zip_with (fun r v => <[c := v]> r) rs vs.
Proof.
  revert vs. induction rs as [|r rs IH]; intros [|v vs]; cbn; try reflexivity.
  rewrite insert_insert_eq, IH. reflexivity.
Qed.

Lemma assign_column_twice (c : string) (vs : list value) (df : frame) :
  assign_column c vs (assign_column c vs df) = assign_column c vs df.
Proof.
  unfold assign_column at 1. rewrite has_column_assign, String.eqb_refl, orb_true_r.
  unfold assign_column. cbn [columns rows]. rewrite zip_with_insert_twice. reflexivity.
Qed.

Lemma cells_assign_ne (c c' : string) (vs : list value) (df : frame) :
  c <> c' -> length vs = length (rows df) ->
  cell c <$> rows (assign_column c' vs df) = cell c <$> rows df.
Proof.
  intros Hne. unfold assign_column. cbn [rows]. generalize (rows df) as rs.
  intros rs. revert vs. induction rs as [|r rs IH]; intros [|v vs] Hlen; cbn in *;
    try reflexivity; try discriminate.
  rewrite cell_insert_ne by exact Hne. f_equal. apply IH. lia.
Qed.

(** ** Filtering keeps the labels and is idempotent *)

Lemma filter_filter_andb {A} (p q : A -> bool) (l : list A) :
  List.filter p (List.filter q l) = List.filter (fun x => (q x && p x)%bool) l.
Proof.
  induction l as [|a l IH]; cbn; [reflexivity|].
  destruct (q a); cbn; [destruct (p a)|]; rewrite IH; reflexivity.
Qed.

Lemma filter_twice {A} (p : A -> bool) (l : list A) :
  List.filter p (List.filter p l) = List.filter p l.
Proof.
  rewrite filter_filter_andb. apply List.filter_ext. intros a. destruct (p a); reflexivity.
Qed.

Lemma columns_select_all (conditions : list (gmap string value -> bool)) (f : frame) :
  columns (select_all conditions f) = columns f.
Proof.
  revert f. induction conditions as [|c cs IH]; intros f; [reflexivity|].
  cbn. unfold select_all in IH. rewrite IH. reflexivity.
Qed.

Lemma rows_select_all (conditions : list (gmap string value -> bool)) (f : frame) :
  rows (select_all conditions f)
  = List.filter (fun r => forallb (fun condition => condition r) conditions) (rows f).
Proof.
  revert f. induction conditions as [|c cs IH]; intros f.
  - cbn. induction (rows f) as [|r l IHl]; cbn; [reflexivity|]. rewrite <- IHl. reflexivity.
  - cbn [select_all foldl forallb]. unfold select_all in IH. rewrite IH. cbn [select rows].
    apply filter_filter_andb.
Qed.

Lemma frame_eq (f g : frame) : columns f = columns g -> rows f = rows g -> f = g.
Proof. destruct f, g. cbn. intros -> ->. reflexivity. Qed.

Lemma select_all_twice (conditions : list (gmap string value -> bool)) (f : frame) :
  select_all conditions (select_all conditions f) = select_all conditions f.
Proof.
  apply frame_eq.
  - rewrite !columns_select_all. reflexivity.
  - rewrite rows_select_all, (rows_select_all conditions f). apply filter_twice.
Qed.

Section EngineFacts.
Context `{RT : Runtime}.

Lemma build_conditions_ext (f g : frame) (cuisines : list string) (budget location : string) :
  has_column "primary_cuisine" g = has_column "primary_cuisine" f ->
  has_column "cost_category" g = has_column "cost_category" f ->
  has_column "location" g = has_column "location" f ->
  build_conditions g cuisines budget location = build_conditions f cuisines budget location.
Proof. intros H1 H2 H3. unfold build_conditions. rewrite H1, H2, H3. reflexivity. Qed.

Lemma build_conditions_nil (f : frame) (cuisines : list string) (budget location : string) :
  build_conditions f cuisines budget location = Return [] ->
  has_column "primary_cuisine" f = false /\
  has_column "cost_category" f = false /\
  has_column "location" f = false.
Proof.
  unfold build_conditions, contains_condition.
  destruct (has_column "primary_cuisine" f).
  { destruct (re_compiles _); cbn; [|discriminate].
    destruct (has_column "location" f); [destruct (re_compiles _)|]; cbn; discriminate. }
  destruct (has_column "cost_category" f).
  { cbn. destruct (has_column "location" f); [destruct (re_compiles _)|]; cbn; discriminate. }
  destruct (has_column "location" f); [|auto].
  destruct (re_compiles _); cbn; discriminate.
Qed.

Lemma build_conditions_cons (f : frame) (cuisines : list string) (budget location : string)
    (conditions : list (gmap string value -> bool)) :
  build_conditions f cuisines budget location = Return conditions ->
  (has_column "primary_cuisine" f || has_column "cost_category" f
   || has_column "location" f)%bool = true ->
  conditions <> [].
Proof.
  intros H Hcol ->. apply build_conditions_nil in H as (H1 & H2 & H3).
  rewrite H1, H2, H3 in Hcol. discriminate.
Qed.

Lemma weighted_score_assign_score (w1 w2 : Q) (sc : list value) (f : frame) :
  length sc = length (rows f) ->
  weighted_score w1 w2 (assign_column "score" sc f) = weighted_score w1 w2 f.
Proof.
  intros Hlen. unfold weighted_score, get_column.
  rewrite !has_column_assign. cbn [String.eqb Ascii.eqb Bool.eqb andb orb].
  rewrite !orb_false_r.
  rewrite !cells_assign_ne by (done || discriminate). reflexivity.
Qed.

Lemma score_column_assign_score (strategy : string) (sc : list value) (f : frame) :
  length sc = length (rows f) ->
  score_column strategy (assign_column "score" sc f) = score_column strategy f.
Proof.
  intros Hlen. unfold score_column.
  destruct (String.eqb _ _); apply weighted_score_assign_score; exact Hlen.
Qed.

End EngineFacts.

(** ** The two strategies *)

Lemma numeric_record_scorable (r : gmap string value) : numeric_record r -> scorable r.
Proof.
  intros [[nr Hnr] Hv]. split; [eauto|].
  destruct Hv as [Hv|[v Hv]]; [left|right]; eauto.
Qed.

Lemma weighted_score_numeric (w1 w2 : Q) (df : frame) :
  has_column "normalized_rating" df = true ->
  has_column "votes" df = true ->
  Forall numeric_record (rows df) ->
  exists sc, weighted_score w1 w2 df = Return sc /\ Forall2 (has_score w1 w2) (rows df) sc.
Proof.
  intros H1 H2 Hrows. exists (row_score w1 w2 <$> rows df). split.
  - apply weighted_score_scorable; [assumption..|].
    eapply Forall_impl; [exact Hrows|]. exact numeric_record_scorable.
  - apply Forall2_fmap_r, Forall_Forall2_diag.
    eapply Forall_impl; [exact Hrows|].
    intros r [[nr Hnr] Hv].
    destruct (row_score_formula w1 w2 nr r Hnr Hv) as (q & Hq & Heq).
    exists nr, q. auto.
Qed.

(** C4. On a filtered table whose records have a numeric normalised rating
    and numeric or missing votes, the score column has one score per record
    (no record is left out), and that score is [0.8 * normalized_rating +
    0.2 * vote_signal] under "A: Rating-heavy" and [0.5 * normalized_rating +
    0.5 * vote_signal] under "B: Votes-heavy", with [vote_signal =
    min(votes, 1000) / 1000] and 0 for missing votes.  A record of rating 5
    with 2000 votes scores 4.2 (= 21/5) and 3.0. *)
Theorem C4_score_is_weighted_sum :
  (forall df : frame,
      has_column "normalized_rating" df = true ->
      has_column "votes" df = true ->
      Forall numeric_record (rows df) ->
      exists sa sb,
        score_column "A: Rating-heavy" df = Return sa /\
        score_column "B: Votes-heavy" df = Return sb /\
        Forall2 (has_score 0.8 0.2) (rows df) sa /\
        Forall2 (has_score 0.5 0.5) (rows df) sb) /\
  score_column "A: Rating-heavy" five_stars = Return [VNum (Fin (21 # 5))] /\
  score_column "B: Votes-heavy" five_stars = Return [VNum (Fin 3)].
Proof.
  split; [|split; reflexivity].
  intros df H1 H2 Hrows.
  destruct (weighted_score_numeric 0.8 0.2 df H1 H2 Hrows) as (sa & Ha & Hsa).
  destruct (weighted_score_numeric 0.5 0.5 df H1 H2 Hrows) as (sb & Hb & Hsb).
  exists sa, sb. repeat split; assumption.
Qed.

Lemma C4_score_is_weighted_sum_witness :
  exists sa sb,
    score_column "A: Rating-heavy" two_records = Return sa /\
    score_column "B: Votes-heavy" two_records = Return sb /\
    Forall2 (has_score 0.8 0.2) (rows two_records) sa /\
    Forall2 (has_score 0.5 0.5) (rows two_records) sb.
Proof.
  apply (proj1 C4_score_is_weighted_sum); [reflexivity|reflexivity|].
  constructor; [|constructor; [|constructor]].
  - split; [exists 4%Q; reflexivity|left; reflexivity].
  - split; [exists 3%Q; reflexivity|right; exists 500%Q; reflexivity].
Defined.

(** ** An unknown strategy label *)

Lemma for_each_same_shape {A B} (f g : A -> outcome B) (l : list A) :
  (forall a, match f a, g a with
             | Return _, Return _ => True
             | Raise e1, Raise e2 => e1 = e2
             | _, _ => False
             end) ->
  same_shape (for_each f l) (for_each g l).
Proof.
  intros H. induction l as [|a l IH]; cbn; [reflexivity|].
  specialize (H a). destruct (f a), (g a); cbn; try contradiction; try assumption.
  destruct (for_each f l), (for_each g l); cbn in *; try contradiction; try assumption.
  lia.
Qed.

Lemma forget_assign_explanation (ex ex' : list value) (t : frame) :
  length ex = length ex' ->
  forget_explanation (assign_column "explanation" ex t)
  = forget_explanation (assign_column "explanation" ex' t).
Proof.
  intros Hlen. unfold forget_explanation, assign_column. cbn [columns rows]. f_equal.
  revert ex ex' Hlen. induction (rows t) as [|r l IH]; intros [|v ex] [|v' ex'] Hlen;
    cbn in *; try reflexivity; try discriminate.
  rewrite !delete_insert_eq. f_equal. apply IH. lia.
Qed.

Section Strategy.
Context `{RT : Runtime}.

Lemma explanation_same_shape (t : frame) (cuisines : list string)
    (budget s1 s2 : string) (l : list (gmap string value)) :
  same_shape (for_each (explanation t cuisines budget s1) l)
             (for_each (explanation t cuisines budget s2) l).
Proof.
  apply for_each_same_shape. intros r. unfold explanation.
  destruct (has_column "rating" t); [|exact I].
  destruct (has_column "normalized_rating" t); [|reflexivity].
  destruct (format_cell_1f _); [|reflexivity]. cbn.
  destruct (has_column "votes" t); [exact I|reflexivity].
Qed.

(** C10. A strategy label other than "A: Rating-heavy", whatever it is,
    is scored as "B: Votes-heavy" is: on a table whose records have a
    numeric normalised rating and numeric or missing votes the scoring
    returns, with one score per record, and that score is [0.5 *
    normalized_rating + 0.5 * vote_signal]; on every table it is the
    computation with the weights 0.5 and 0.5; and the call ends as the call
    with "B: Votes-heavy" ends (same reference returned or same exception
    raised, none of its own), and leaves the same frames up to the text of
    the explanations, which quotes the label. *)
Theorem C10_other_strategy_is_votes_heavy (strategy : string) :
  strategy <> "A: Rating-heavy" ->
  (forall df : frame,
      has_column "normalized_rating" df = true ->
      has_column "votes" df = true ->
      Forall numeric_record (rows df) ->
      exists sc,
        score_column strategy df = Return sc /\
        Forall2 (has_score 0.5 0.5) (rows df) sc) /\
  (forall df : frame, score_column strategy df = weighted_score 0.5 0.5 df) /\
  (forall (h : heap) (df : option ref) (cuisines : list string)
          (budget location : string) (top_n : Z),
      let run_s :=
        filter_and_rank_restaurants df cuisines budget location strategy top_n h in
      let run_b :=
        filter_and_rank_restaurants df cuisines budget location "B: Votes-heavy" top_n h in
      same_outcome run_s.1 run_b.1 /\
      forget_explanation <$> run_s.2 = forget_explanation <$> run_b.2).
Proof.
  intros Hs. split; [|split; [intros df; apply score_column_other; exact Hs|]].
  { intros df H1 H2 Hrows. rewrite score_column_other by exact Hs.
    apply weighted_score_numeric; assumption. }
  intros h [df|] cuisines budget location top_n; [|split; reflexivity].
  destruct (h !! df) as [f|] eqn:Hdf.
  2:{ cbn. unfold filter_and_rank_restaurants. rewrite !bind_run. unfold deref.
      rewrite Hdf. split; reflexivity. }
  cbn zeta. rewrite !(filter_and_rank_run h df f) by exact Hdf.
  destruct (build_conditions f _ budget _) as [conditions|e]; [|split; reflexivity].
  cbn zeta. rewrite (score_column_other strategy) by exact Hs.
  change (score_column "B: Votes-heavy" ?x) with (weighted_score 0.5 0.5 x).
  destruct (weighted_score 0.5 0.5 _) as [score|e]; [|split; reflexivity].
  set (t := head top_n _).
  pose proof (explanation_same_shape t (py_lower <$> cuisines) budget strategy
                "B: Votes-heavy" (rows t)) as Hshape.
  destruct (for_each (explanation t _ budget strategy) _) as [ex|e1],
           (for_each (explanation t _ budget "B: Votes-heavy") _) as [ex'|e2];
    cbn in Hshape; try contradiction.
  - split; [reflexivity|]. cbn [snd]. rewrite !fmap_app. f_equal. cbn. f_equal.
    apply forget_assign_explanation. exact Hshape.
  - subst e2. split; reflexivity.
Qed.

End Strategy.

Lemma C10_other_strategy_is_votes_heavy_witness :
  let RT := ExampleRuntime.make ExampleRuntime.no_files in
  exists sc,
    score_column "C: Surprise me" two_records = Return sc /\
    Forall2 (has_score 0.5 0.5) (rows two_records) sc.
Proof.
  intros RT.
  apply (proj1 (C10_other_strategy_is_votes_heavy "C: Surprise me" ltac:(discriminate)));
    [reflexivity|reflexivity|].
  constructor; [|constructor; [|constructor]].
  - split; [exists 4%Q; reflexivity|left; reflexivity].
  - split; [exists 3%Q; reflexivity|right; exists 500%Q; reflexivity].
Defined.

(** ** What a call does to the caller's table *)

Section Frame.
Context `{RT : Runtime}.

(** With at least one of the three columns the filter builds a new frame,
    and the caller's table is as it was, whatever the call does. *)
Lemma input_kept_when_filtered (h : heap) (df : ref) (f : frame)
    (cuisines : list string) (budget location strategy : string) (top_n : Z) :
  h !! df = Some f ->
  (has_column "primary_cuisine" f || has_column "cost_category" f
   || has_column "location" f)%bool = true ->
  (filter_and_rank_restaurants (Some df) cuisines budget location strategy top_n h).2 !! df
  = Some f.
Proof.
  intros Hdf Hcol. rewrite (filter_and_rank_run h df f) by exact Hdf.
  destruct (build_conditions f _ budget _) as [conditions|e] eqn:Hb; [|exact Hdf].
  pose proof (build_conditions_cons _ _ _ _ _ Hb Hcol) as Hne.
  pose proof (lookup_lt_Some _ _ _ Hdf) as Hlt.
  assert (Hfl : length h <= filtered_ref conditions df h).
  { destruct conditions; [contradiction|]. cbn. lia. }
  assert (H1 : (h ++ filter_steps conditions f) !! df = Some f).
  { rewrite lookup_app_l by exact Hlt. exact Hdf. }
  cbn zeta. destruct (score_column strategy _) as [score|e]; [|exact H1].
  assert (H2 : (<[filtered_ref conditions df h :=
                   assign_column "score" score (select_all conditions f)]>
                  (h ++ filter_steps conditions f)) !! df = Some f).
  { rewrite list_lookup_insert_ne by lia. exact H1. }
  pose proof (lookup_lt_Some _ _ _ H2) as Hlt2.
  destruct (for_each _ _); cbn [snd]; rewrite lookup_app_l by exact Hlt2; exact H2.
Qed.

(** Without any of them [filtered_df] is the caller's table itself, and the
    score column is written to it. *)
Lemma input_scored_when_unfiltered (h h' : heap) (df r : ref) (f : frame)
    (cuisines : list string) (budget location strategy : string) (top_n : Z) :
  h !! df = Some f ->
  (has_column "primary_cuisine" f || has_column "cost_category" f
   || has_column "location" f)%bool = false ->
  filter_and_rank_restaurants (Some df) cuisines budget location strategy top_n h
    = (Return r, h') ->
  exists score, score_column strategy f = Return score /\
                h' !! df = Some (assign_column "score" score f).
Proof.
  intros Hdf Hcol. rewrite (filter_and_rank_run h df f) by exact Hdf.
  apply orb_false_iff in Hcol as [Hcol H3]. apply orb_false_iff in Hcol as [H1 H2].
  unfold build_conditions. rewrite H1, H2, H3. cbn.
  destruct (score_column strategy f) as [score|e]; [|discriminate].
  destruct (for_each _ _); [|discriminate].
  intros H. inversion H; subst. exists score. split; [reflexivity|].
  pose proof (lookup_lt_Some _ _ _ Hdf) as Hlt.
  rewrite app_nil_r. rewrite lookup_app_l by (rewrite length_insert; exact Hlt).
  apply list_lookup_insert_eq. exact Hlt.
Qed.

End Frame.

(** C9 (the code departs from it). The caller passes [bare_ratings]; the
    call returns, and afterwards the caller's table has a "score" column that
    it did not have before. *)
Theorem C9_pass_through_writes_score_to_input :
  let RT := ExampleRuntime.make ExampleRuntime.no_files in
  exists (r : ref) (h' : heap) (df' : frame),
    filter_and_rank_restaurants (Some 0%nat) ["indian"] "medium" "Bangalore"
      "A: Rating-heavy" 10 [bare_ratings] = (Return r, h') /\
    h' !! 0%nat = Some df' /\
    columns bare_ratings = ["normalized_rating"; "votes"] /\
    columns df' = ["normalized_rating"; "votes"; "score"] /\
    cell "score" <$> rows df' = [VNum (Fin (161 # 50))].
Proof.
  intros RT.
  set (run := filter_and_rank_restaurants (Some 0%nat) ["indian"] "medium" "Bangalore"
                "A: Rating-heavy" 10 [bare_ratings]).
  exists 1%nat, run.2, (default empty_frame (run.2 !! 0%nat)).
  repeat split; vm_compute; reflexivity.
Qed.

(** ** Re-ranking *)

Section Rerank.
Context `{RT : Runtime}.

(** What the first call leaves under the caller's reference: the table
    itself, or the table with its scores when nothing was filtered. *)
Lemma first_call_leaves (h hA : heap) (df r1 : ref) (f : frame)
    (cuisines : list string) (budget location strategy : string) (top_n : Z) :
  h !! df = Some f ->
  filter_and_rank_restaurants (Some df) cuisines budget location strategy top_n h
    = (Return r1, hA) ->
  exists conditions score ex f',
    build_conditions f (py_lower <$> cuisines) budget (py_lower location)
      = Return conditions /\
    score_column strategy (select_all conditions f) = Return score /\
    (let t := head top_n (sort_values_desc
                            (assign_column "score" score (select_all conditions f))) in
     for_each (explanation t (py_lower <$> cuisines) budget strategy) (rows t) = Return ex /\
     hA !! r1 = Some (assign_column "explanation" ex t)) /\
    hA !! df = Some f' /\
    build_conditions f' (py_lower <$> cuisines) budget (py_lower location)
      = Return conditions /\
    score_column strategy (select_all conditions (select_all conditions f')) = Return score /\
    assign_column "score" score (select_all conditions (select_all conditions f'))
      = assign_column "score" score (select_all conditions f).
Proof.
  intros Hdf Hrun.
  pose proof (lookup_lt_Some _ _ _ Hdf) as Hlt.
  rewrite (filter_and_rank_run h df f) in Hrun by exact Hdf.
  destruct (build_conditions f _ budget _) as [conditions|e] eqn:Hb; [|discriminate].
  cbn zeta in Hrun.
  destruct (score_column strategy _) as [score|e] eqn:Hsc; [|discriminate].
  destruct (for_each _ _) as [ex|e] eqn:Hex; [|discriminate].
  inversion Hrun; subst r1 hA; clear Hrun.
  destruct conditions as [|c cs].
  - (* nothing filtered: the caller's table now carries the scores *)
    cbn [select_all foldl filter_steps filtered_ref] in *.
    rewrite app_nil_r in *.
    pose proof (score_column_length _ _ _ Hsc) as Hlen.
    apply build_conditions_nil in Hb as Hcols. destruct Hcols as (H1 & H2 & H3).
    exists [], score, ex, (assign_column "score" score f).
    split; [reflexivity|]. split; [exact Hsc|]. split; [split; [exact Hex|apply lookup_new]|].
    split.
    { rewrite lookup_app_l by (rewrite length_insert; exact Hlt).
      apply list_lookup_insert_eq. exact Hlt. }
    split.
    { rewrite <- Hb. apply build_conditions_ext; rewrite has_column_assign;
        [rewrite H1|rewrite H2|rewrite H3]; reflexivity. }
    cbn [select_all foldl]. split.
    + rewrite score_column_assign_score by exact Hlen. exact Hsc.
    + apply assign_column_twice.
  - (* filtered: the caller's table is untouched *)
    set (conditions := c :: cs) in *.
    assert (Hfl : length h <= filtered_ref conditions df h) by (cbn; lia).
    exists conditions, score, ex, f.
    split; [reflexivity|]. split; [exact Hsc|]. split; [split; [exact Hex|apply lookup_new]|].
    split.
    { rewrite lookup_app_l.
      - rewrite list_lookup_insert_ne by lia. rewrite lookup_app_l by exact Hlt. exact Hdf.
      - rewrite length_insert, length_app. lia. }
    split; [exact Hb|]. rewrite select_all_twice. split; [exact Hsc|reflexivity].
Qed.

(** C2. After a first ranking that returned, [main] has kept the filtered
    table, and re-ranking it with the same strategy (and the same [top_n])
    returns too, with a table equal to the one the first ranking returned:
    the same records, with the same scores and explanations, in the same
    order. *)
Theorem C2_rerank_same_strategy_same_ranking (h hA : heap) (df r1 : ref) (f : frame)
    (cuisines : list string) (budget location strategy : string) (top_n : Z) :
  h !! df = Some f ->
  filter_and_rank_restaurants (Some df) cuisines budget location strategy top_n h
    = (Return r1, hA) ->
  exists (st st' : session_state) (hB hC : heap) (r2 : ref) (top : frame),
    main_submit df cuisines budget location strategy top_n h = (Return st, hB) /\
    st_recommendations st = Some r1 /\
    hB !! r1 = Some top /\
    main_rerank st strategy top_n hB = (Return st', hC) /\
    st_recommendations st' = Some r2 /\
    hC !! r2 = Some top.
Proof.
  intros Hdf Hrun.
  destruct (first_call_leaves _ _ _ _ _ _ _ _ _ _ Hdf Hrun)
    as (conditions & score & ex & f' & Hb & Hsc & [Hex Htop] & Hdf' & Hb' & Hsc' & Hscored).
  pose proof (filtered_lookup conditions df f' hA Hdf') as Hfl.
  set (hB := hA ++ filter_steps conditions f') in *.
  set (fl := filtered_ref conditions df hA) in *.
  set (st := mkSession (Some r1) (Some (mkPreferences cuisines budget location strategy))
                       (Some fl)).
  assert (Hsubmit : main_submit df cuisines budget location strategy top_n h
                    = (Return st, hB)).
  { unfold main_submit. rewrite bind_run, Hrun.
    rewrite bind_run, (deref_run _ _ _ Hdf'). rewrite bind_run. unfold lift at 1.
    rewrite Hb'. rewrite bind_run, (apply_conditions_run conditions df f' hA Hdf').
    reflexivity. }
  (* the second call, on the kept table *)
  pose proof (filter_and_rank_run hB fl (select_all conditions f')
                cuisines budget location strategy top_n Hfl) as Hrun2.
  rewrite (build_conditions_ext f' (select_all conditions f')) in Hrun2
    by (apply has_column_ext, columns_select_all).
  rewrite Hb' in Hrun2. cbn zeta in Hrun2.
  rewrite Hsc', Hscored in Hrun2. cbn zeta in Hex. rewrite Hex in Hrun2.
  eexists st, _, hB, _, _, _.
  split; [exact Hsubmit|]. split; [reflexivity|].
  split; [subst hB; rewrite lookup_app_l by (eapply lookup_lt_Some; exact Htop); exact Htop|].
  split.
  { unfold main_rerank. cbn [st st_recommendations st_preferences st_filtered_df
                               pref_cuisines pref_budget pref_location].
    rewrite bind_run, Hrun2. reflexivity. }
  split; [reflexivity|]. apply lookup_new.
Qed.

End Rerank.

(** ** The filter *)

Lemma plain_no_bar (c : ascii) :
  Str.mem_char c Str.metachars = false -> Ascii.eqb c "|" = false.
Proof. destruct c as [[] [] [] [] [] [] [] []]; cbn; congruence. Qed.

Lemma split_on_bar_app (s rest : string) :
  Str.plain s = true ->
  Str.split_on "|" (s ++ "|" ++ rest)%string = s :: Str.split_on "|" rest.
Proof.
  induction s as [|c s IH]; intros Hp; [reflexivity|].
  cbn [Str.plain] in Hp. apply andb_true_iff in Hp as [Hc Hs].
  apply negb_true_iff, plain_no_bar in Hc.
  simpl. rewrite Hc, (IH Hs). reflexivity.
Qed.

Lemma split_on_bar_plain (s : string) :
  Str.plain s = true -> Str.split_on "|" s = [s].
Proof.
  induction s as [|c s IH]; intros Hp; [reflexivity|].
  cbn [Str.plain] in Hp. apply andb_true_iff in Hp as [Hc Hs].
  apply negb_true_iff, plain_no_bar in Hc.
  cbn [Str.split_on]. rewrite Hc, (IH Hs). reflexivity.
Qed.

Lemma split_on_bar_join (alts : list string) :
  alts <> [] ->
  Forall (fun a => Str.plain a = true) alts ->
  Str.split_on "|" (Str.join "|" alts) = alts.
Proof.
  induction alts as [|a alts IH]; intros Hne Hp; [contradiction|].
  inversion Hp as [|? ? Ha Hrest]; subst.
  destruct alts as [|b alts].
  - cbn. apply split_on_bar_plain. exact Ha.
  - cbn [Str.join]. rewrite split_on_bar_app by exact Ha.
    f_equal. apply IH; [discriminate|exact Hrest].
Qed.

(** The example runtime does what Python does with such patterns. *)
Lemma example_runtime_regex (files : string -> string -> outcome frame) :
  regex_on_plain_texts (ExampleRuntime.make files).
Proof.
  intros alts s Hne Hp. cbn. unfold ExampleRuntime.alternatives.
  rewrite split_on_bar_join by assumption. split; [|reflexivity].
  apply forallb_forall. intros a Ha. rewrite Forall_forall in Hp. apply Hp.
  apply list_elem_of_In. exact Ha.
Qed.

Lemma existsb_fmap {A B} (p : B -> bool) (g : A -> B) (l : list A) :
  existsb p (g <$> l) = existsb (fun a => p (g a)) l.
Proof. induction l as [|a l IH]; cbn; [reflexivity|]. rewrite IH. reflexivity. Qed.

Section Filter.
Context `{RT : Runtime}.

Lemma conditions_are_claimed (f : frame) (cuisines : list string) (budget location : string) :
  regex_on_plain_texts RT ->
  cuisines <> [] ->
  Forall (fun c => Str.plain (py_lower c) = true) cuisines ->
  Str.plain (py_lower location) = true ->
  exists conditions,
    build_conditions f (py_lower <$> cuisines) budget (py_lower location)
      = Return conditions /\
    forall r, forallb (fun condition => condition r) conditions
              = claimed_retained f cuisines budget location r.
Proof.
  intros Hre Hne Hpc Hpl.
  assert (Hc : forall s,
             re_compiles (Str.join "|" (py_lower <$> cuisines)) = true /\
             re_search (Str.join "|" (py_lower <$> cuisines)) s
             = existsb (fun c => Str.contains (py_lower c) s) cuisines).
  { intros s. rewrite <- (existsb_fmap (fun a => Str.contains a s) py_lower cuisines).
    apply Hre.
    - destruct cuisines; [contradiction|discriminate].
    - apply Forall_fmap. exact Hpc. }
  assert (Hl : forall s,
             re_compiles (py_lower location) = true /\
             re_search (py_lower location) s = Str.contains (py_lower location) s).
  { intros s.
    destruct (Hre [py_lower location] s) as [H1 H2]; [discriminate| |].
    - constructor; [exact Hpl|constructor].
    - cbn in H1, H2. rewrite orb_false_r in H2. auto. }
  destruct (Hc EmptyString) as [Hcc _]. destruct (Hl EmptyString) as [Hlc _].
  unfold build_conditions, contains_condition, claimed_retained.
  rewrite Hcc, Hlc.
  destruct (has_column "primary_cuisine" f), (has_column "cost_category" f),
           (has_column "location" f); cbn; eexists; (split; [reflexivity|]);
    intros r; cbn;
    repeat match goal with
           | |- context [cell ?c r] => destruct (cell c r) as [|?|?]; cbn
           end;
    rewrite ?(proj2 (Hc _)), ?(proj2 (Hl _)), ?andb_true_r, ?andb_false_r, ?andb_assoc;
    reflexivity.
Qed.

(** C3 (as amended). Take a table with distinct labels in which each of
    the three filter columns that exists holds a text, and a request with at
    least one cuisine, whose lowercased cuisines and location are plain texts
    (no regular-expression metacharacter).  The filter returns, and keeps
    exactly the records that meet every condition whose column exists: some
    requested cuisine occurs in the primary cuisine, the cost category is
    the budget, the requested location occurs in the location, all
    regardless of case; a condition whose column is absent is skipped.  For
    every request, a table without any of the three columns passes
    unfiltered. *)
Theorem C3_filter_keeps_matching_records :
  (regex_on_plain_texts RT ->
   forall (f : frame) (cuisines : list string) (budget location : string),
     distinct_labels f = true ->
     filter_columns_are_text f = true ->
     cuisines <> [] ->
     Forall (fun c => Str.plain (py_lower c) = true) cuisines ->
     Str.plain (py_lower location) = true ->
     filter_stage f cuisines budget location
     = Return (mkFrame (columns f)
                       (List.filter (claimed_retained f cuisines budget location) (rows f)))) /\
  (forall (f : frame) (cuisines : list string) (budget location : string),
      has_column "primary_cuisine" f = false ->
      has_column "cost_category" f = false ->
      has_column "location" f = false ->
      filter_stage f cuisines budget location = Return f).
Proof.
  split.
  - intros Hre f cuisines budget location _ _ Hne Hpc Hpl.
    destruct (conditions_are_claimed f cuisines budget location Hre Hne Hpc Hpl)
      as (conditions & Hb & Hconds).
    unfold filter_stage. rewrite Hb. cbn. f_equal. apply frame_eq.
    + exact (columns_select_all conditions f).
    + rewrite rows_select_all. cbn. apply List.filter_ext. exact Hconds.
  - intros f cuisines budget location H1 H2 H3.
    unfold filter_stage, build_conditions. rewrite H1, H2, H3. reflexivity.
Qed.

End Filter.

Lemma C3_filter_keeps_matching_records_witness :
  let RT := ExampleRuntime.make ExampleRuntime.no_files in
  filter_stage bangalore_place ["Italian"] "Medium" "bangalore"
  = Return (mkFrame (columns bangalore_place)
                    (List.filter (claimed_retained bangalore_place ["Italian"] "Medium" "bangalore")
                                 (rows bangalore_place))) /\
  filter_stage bare_ratings ["a.*"] "low" "(" = Return bare_ratings.
Proof.
  intros RT. split.
  - apply (proj1 (@C3_filter_keeps_matching_records RT)).
    + apply example_runtime_regex.
    + vm_compute. reflexivity.
    + vm_compute. reflexivity.
    + discriminate.
    + repeat constructor.
    + reflexivity.
  - apply (proj2 (@C3_filter_keeps_matching_records RT)); reflexivity.
Defined.

(** C3 (as stated) fails: the request asks for the one cuisine "thai|indian";
    the code reads it as a pattern and keeps the Thai restaurant, although
    "thai|indian" does not occur in "thai". *)
Lemma C3_counterexample :
  let RT := ExampleRuntime.make ExampleRuntime.no_files in
  filter_stage thai_place ["thai|indian"] "low" "" = Return thai_place /\
  Forall (fun r => claimed_retained thai_place ["thai|indian"] "low" "" r = false)
         (rows thai_place).
Proof.
  intros RT. split; [vm_compute; reflexivity|].
  constructor; [vm_compute; reflexivity|constructor].
Qed.

(** ** Cleaning: which fields a record has *)

Lemma all_cells_set_eq (c : string) (P : value -> Prop) (g : gmap string value -> value)
    (f : frame) :
  (forall r, P (g r)) -> all_cells c P (set_column c g f).
Proof.
  intros H. unfold all_cells, set_column. cbn [rows]. apply Forall_fmap, Forall_forall.
  intros r _. cbn. exists (g r). rewrite lookup_insert_eq. auto.
Qed.

Lemma all_cells_set_ne (c c' : string) (P : value -> Prop) (g : gmap string value -> value)
    (f : frame) :
  c <> c' -> all_cells c P f -> all_cells c P (set_column c' g f).
Proof.
  intros Hne H. unfold all_cells, set_column in *. cbn [rows]. apply Forall_fmap.
  eapply Forall_impl; [exact H|]. intros r (v & Hv & HP). cbn. exists v.
  rewrite lookup_insert_ne by congruence. auto.
Qed.

Lemma all_cells_cell (c : string) (v : value) (f : frame) :
  all_cells c (eq v) f -> Forall (fun r => cell c r = v) (rows f).
Proof.
  intros H. eapply Forall_impl; [exact H|]. intros r (w & Hw & ->). unfold cell.
  rewrite Hw. reflexivity.
Qed.

Lemma fillna_num_fin (d : Q) (n : num) : exists q, fillna_num (Fin d) n = Fin q.
Proof. destruct n; cbn; eauto. Qed.

Lemma insert_sorted_cons (x : Q) (l : list Q) : exists y l', insert_sorted x l = y :: l'.
Proof. destruct l as [|y l]; cbn; [eauto|]. destruct (Qle_bool x y); eauto. Qed.

Lemma median_fin (ns : list num) : forallb is_nan ns = false -> exists q, median ns = Fin q.
Proof.
  intros H. unfold median.
  assert (Hne : exists q l, finite_of ns = q :: l).
  { induction ns as [|[|q] ns IH]; cbn in *; [discriminate|auto|eauto]. }
  destruct Hne as (q & l & Hq). rewrite Hq. cbn [sort_Q foldr].
  destruct (insert_sorted_cons q (foldr insert_sorted [] l)) as (y & l' & ->).
  destruct (Nat.even _); eauto.
Qed.

Section Fields.
Context `{RT : Runtime}.

Lemma clean_table_fst (df0 : frame) :
  (clean_table df0).1
  = feature_engineering
      (handle_votes (handle_cuisines (handle_location (handle_cost (handle_rating
        (dropna_thresh
           (drop_columns
              (filter (fun col => col ∈ columns (remove_duplicates (normalized df0)))
                      columns_to_drop)
              (remove_duplicates (normalized df0))))))))).
Proof.
  unfold clean_table, normalized. destruct (rename_columns df0) as [df missing].
  reflexivity.
Qed.

(** *** Labels through the stages *)

Lemma columns_remove_duplicates (f : frame) : columns (remove_duplicates f) = columns f.
Proof. unfold remove_duplicates. destruct (filter _ _); reflexivity. Qed.

Lemma has_column_drop_columns (c : string) (cs : list string) (f : frame) :
  has_column c f = false -> has_column c (drop_columns cs f) = false.
Proof.
  rewrite !has_column_false. unfold drop_columns. cbn [columns].
  rewrite list_elem_of_filter. tauto.
Qed.

Lemma has_column_handle_rating (c : string) (f : frame) :
  has_column c (handle_rating f) = (has_column c f || String.eqb c "rating")%bool.
Proof. unfold handle_rating. destruct (has_column "rating" f); apply has_column_set. Qed.

Lemma has_column_handle_cost (c : string) (f : frame) :
  has_column c (handle_cost f) = (has_column c f || String.eqb c "cost")%bool.
Proof.
  unfold handle_cost. destruct (has_column "cost" f); rewrite ?has_column_set;
    [|reflexivity].
  destruct (has_column c f), (String.eqb c "cost"); reflexivity.
Qed.

Lemma has_column_handle_location (c : string) (f : frame) :
  has_column c (handle_location f) = (has_column c f || String.eqb c "location")%bool.
Proof.
  unfold handle_location. destruct (has_column "location" f) eqn:E; cbn.
  - destruct (String.eqb_spec c "location") as [->|]; [rewrite E|rewrite orb_false_r];
      reflexivity.
  - apply has_column_set.
Qed.

Lemma has_column_handle_cuisines (c : string) (f : frame) :
  has_column c (handle_cuisines f) = (has_column c f || String.eqb c "cuisines")%bool.
Proof. unfold handle_cuisines. destruct (has_column "cuisines" f); apply has_column_set. Qed.

Lemma has_column_handle_votes (c : string) (f : frame) :
  has_column c (handle_votes f) = (has_column c f || String.eqb c "votes")%bool.
Proof.
  unfold handle_votes. destruct (has_column "votes" f) eqn:E; cbn.
  - destruct (String.eqb_spec c "votes") as [->|]; [rewrite E|rewrite orb_false_r];
      reflexivity.
  - apply has_column_set.
Qed.

Lemma has_column_feature_engineering (c : string) (f : frame) :
  has_column c (feature_engineering f)
  = (has_column c f || String.eqb c "cost_category" || String.eqb c "primary_cuisine"
     || String.eqb c "normalized_rating")%bool.
Proof. unfold feature_engineering. rewrite !has_column_set. reflexivity. Qed.

Lemma has_column_dropna (c : string) (f : frame) :
  has_column c (dropna_thresh f) = has_column c f.
Proof. reflexivity. Qed.

Lemma has_column_before (c : string) (df0 : frame) :
  has_column c (normalized df0) = false ->
  has_column c (dropna_thresh
                  (drop_columns
                     (filter (fun col => col ∈ columns (remove_duplicates (normalized df0)))
                             columns_to_drop)
                     (remove_duplicates (normalized df0)))) = false.
Proof.
  intros H. rewrite has_column_dropna. apply has_column_drop_columns.
  rewrite (has_column_ext c _ _ (columns_remove_duplicates _)). exact H.
Qed.

(** The labels of the cleaned table: those that are left of the source,
    and the eight that cleaning sets. *)
Lemma has_column_clean_table (c : string) (df0 : frame) :
  has_column c (normalized df0) = false ->
  has_column c (clean_table df0).1
  = (String.eqb c "rating" || String.eqb c "cost" || String.eqb c "location"
     || String.eqb c "cuisines" || String.eqb c "votes" || String.eqb c "cost_category"
     || String.eqb c "primary_cuisine" || String.eqb c "normalized_rating")%bool.
Proof.
  intros H. rewrite clean_table_fst, has_column_feature_engineering,
    has_column_handle_votes, has_column_handle_cuisines, has_column_handle_location,
    has_column_handle_cost, has_column_handle_rating.
  rewrite has_column_before by exact H. reflexivity.
Qed.

(** *** Cells through the stages *)

Lemma all_cells_handle_rating (c : string) (P : value -> Prop) (f : frame) :
  c <> "rating" -> all_cells c P f -> all_cells c P (handle_rating f).
Proof.
  intros Hne H. unfold handle_rating.
  destruct (has_column "rating" f); apply all_cells_set_ne; assumption.
Qed.

Lemma all_cells_handle_cost (c : string) (P : value -> Prop) (f : frame) :
  c <> "cost" -> all_cells c P f -> all_cells c P (handle_cost f).
Proof.
  intros Hne H. unfold handle_cost.
  destruct (has_column "cost" f); repeat apply all_cells_set_ne; assumption.
Qed.

Lemma all_cells_handle_location (c : string) (P : value -> Prop) (f : frame) :
  c <> "location" -> all_cells c P f -> all_cells c P (handle_location f).
Proof.
  intros Hne H. unfold handle_location.
  destruct (negb _); [apply all_cells_set_ne|]; assumption.
Qed.

Lemma all_cells_handle_cuisines (c : string) (P : value -> Prop) (f : frame) :
  c <> "cuisines" -> all_cells c P f -> all_cells c P (handle_cuisines f).
Proof.
  intros Hne H. unfold handle_cuisines.
  destruct (has_column "cuisines" f); apply all_cells_set_ne; assumption.
Qed.

Lemma all_cells_handle_votes (c : string) (P : value -> Prop) (f : frame) :
  c <> "votes" -> all_cells c P f -> all_cells c P (handle_votes f).
Proof.
  intros Hne H. unfold handle_votes.
  destruct (negb _); [apply all_cells_set_ne|]; assumption.
Qed.

Lemma all_cells_feature_engineering (c : string) (P : value -> Prop) (f : frame) :
  c <> "cost_category" -> c <> "primary_cuisine" -> c <> "normalized_rating" ->
  all_cells c P f -> all_cells c P (feature_engineering f).
Proof.
  intros H1 H2 H3 H. unfold feature_engineering.
  repeat apply all_cells_set_ne; assumption.
Qed.

Lemma all_cells_rating (f : frame) : all_cells "rating" is_number (handle_rating f).
Proof.
  unfold handle_rating. destruct (has_column "rating" f); apply all_cells_set_eq; intros r.
  - destruct (fillna_num_fin 3 (to_numeric_cell (cell "rating" r))) as [q ->].
    exists q. reflexivity.
  - exists 3%Q. reflexivity.
Qed.

Lemma all_cells_cost (f : frame) : all_cells "cost" is_number (handle_cost f).
Proof.
  unfold handle_cost. destruct (has_column "cost" f); apply all_cells_set_eq; intros r.
  - match goal with
    | |- is_number (VNum (fillna_num ?m _)) =>
        assert (Hm : exists q, m = Fin q)
    end.
    { destruct (forallb is_nan _) eqn:E; cbn [negb]; [eauto|]. apply median_fin. exact E. }
    destruct Hm as [m ->].
    match goal with
    | |- is_number (VNum (fillna_num _ ?n)) => destruct (fillna_num_fin m n) as [q ->]
    end.
    exists q. reflexivity.
  - exists 500%Q. reflexivity.
Qed.


Lemma all_cells_cuisines_default (f : frame) :
  has_column "cuisines" f = false ->
  all_cells "cuisines" (eq (VStr "Unknown")) (handle_cuisines f).
Proof.
  intros H. unfold handle_cuisines. rewrite H. apply all_cells_set_eq. reflexivity.
Qed.


Lemma all_cells_votes_default (f : frame) :
  has_column "votes" f = false ->
  all_cells "votes" (eq (VNum (Fin 0))) (handle_votes f).
Proof.
  intros H. unfold handle_votes. rewrite H. cbn [negb].
  apply all_cells_set_eq. reflexivity.
Qed.

Lemma all_cells_primary_cuisine (v : value) (f : frame) :
  all_cells "cuisines" (eq v) f ->
  all_cells "primary_cuisine" (eq (primary_cuisine_of v)) (feature_engineering f).
Proof.
  intros H. apply all_cells_cell in H. unfold feature_engineering.
  apply all_cells_set_ne; [discriminate|].
  unfold all_cells, set_column. cbn [rows]. rewrite <- list_fmap_compose.
  apply Forall_fmap. eapply Forall_impl; [exact H|]. intros r Hr. cbn.
  eexists. rewrite lookup_insert_eq. split; [reflexivity|].
  rewrite cell_insert_ne by discriminate. rewrite Hr. reflexivity.
Qed.

End Fields.

(** ** Cleaning: the claims about records *)

Lemma Forall_sublist_of {A} (P : A -> Prop) (l k : list A) :
  l `sublist_of` k -> Forall P k -> Forall P l.
Proof.
  intros Hsub. rewrite !Forall_forall. intros H a Ha. apply H.
  eapply elem_of_sublist; eassumption.
Qed.




Lemma rename_column_keeps_absent (c old new : string) (f : frame) :
  c ∉ columns f -> c <> new -> c ∉ columns (rename_column old new f).
Proof.
  intros Hc Hne. unfold rename_column. cbn [columns]. rewrite list_elem_of_fmap.
  intros (c' & Heq & Hin). destruct (String.eqb c' old); congruence.
Qed.

Lemma rename_first_keeps_absent (c std : string) (aliases : list string) (f f' : frame) :
  c ∉ columns f -> c <> std -> rename_first std aliases f = Some f' -> c ∉ columns f'.
Proof.
  intros Hc Hne. induction aliases as [|a aliases IH]; cbn; [discriminate|].
  destruct (has_column a f); [|exact IH].
  intros H. inversion H; subst. apply rename_column_keeps_absent; assumption.
Qed.

Lemma rename_fold_keeps_absent (c : string) (entries : list (string * list string)) :
  Forall (fun entry => c <> entry.1) entries ->
  forall acc : frame * list string,
    c ∉ columns acc.1 ->
    c ∉ columns (foldl (fun acc entry =>
                          match rename_first entry.1 entry.2 acc.1 with
                          | Some df' => (df', acc.2)
                          | None => (acc.1, acc.2 ++ [entry.1])
                          end) acc entries).1.
Proof.
  induction 1 as [|entry entries Hne _ IH]; intros acc Hc; [exact Hc|].
  cbn [foldl]. apply IH.
  destruct (rename_first entry.1 entry.2 acc.1) as [df'|] eqn:E; cbn [fst]; [|exact Hc].
  eapply rename_first_keeps_absent; eassumption.
Qed.

Lemma foldl_step {A B} (f : A -> B -> A) (a : A) (b : B) (l : list B) :
  foldl f a (b :: l) = foldl f (f a b) l.
Proof. reflexivity. Qed.

(** A source that has none of the three labels that mean a name has no
    "name" column after renaming. *)
Lemma normalized_lacks_name (df0 : frame) :
  "Restaurant Name" ∉ columns df0 ->
  "restaurant_name" ∉ columns df0 ->
  "name" ∉ columns df0 ->
  has_column "name" (normalized df0) = false.
Proof.
  intros H1 H2 H3. apply has_column_false.
  unfold normalized, rename_columns, column_map.
  rewrite foldl_step. apply rename_fold_keeps_absent.
  - repeat constructor; discriminate.
  - cbn [fst snd rename_first].
    apply has_column_false in H1, H2, H3. rewrite H1, H2, H3. cbn [fst].
    apply has_column_false. exact H3.
Qed.

Section Records.
Context `{RT : Runtime}.

Lemma has_column_clean_table_set (c : string) (df0 : frame) :
  (String.eqb c "rating" || String.eqb c "cost" || String.eqb c "location"
   || String.eqb c "cuisines" || String.eqb c "votes")%bool = true ->
  has_column c (clean_table df0).1 = true.
Proof.
  intros H. rewrite clean_table_fst, has_column_feature_engineering,
    has_column_handle_votes, has_column_handle_cuisines, has_column_handle_location,
    has_column_handle_cost, has_column_handle_rating.
  destruct (has_column c _); [reflexivity|].
  destruct (String.eqb c "rating"), (String.eqb c "cost"), (String.eqb c "location"),
    (String.eqb c "cuisines"), (String.eqb c "votes"); try reflexivity; discriminate.
Qed.

(** *** Where the cells of a cleaned record come from *)












(** C7 (the code departs from it). When the renamed source has no
    cuisines column, every record of the cleaned table has the primary
    cuisine "Unknown", with a capital U. *)
Theorem C7_absent_cuisines_primary_cuisine (df0 : frame) :
  has_column "cuisines" (normalized df0) = false ->
  all_cells "primary_cuisine" (eq (VStr "Unknown")) (clean_table df0).1.
Proof.
  intros H. rewrite clean_table_fst.
  apply (all_cells_primary_cuisine (VStr "Unknown")).
  apply all_cells_handle_votes; [discriminate|].
  apply all_cells_cuisines_default.
  rewrite has_column_handle_location, has_column_handle_cost, has_column_handle_rating.
  rewrite has_column_before by exact H. reflexivity.
Qed.

End Records.



(** The records of [half_known] after cleaning: the empty location and the
    empty votes of the first are still empty, the empty cuisines of the
    second are "unknown". *)
Example half_known_cleaned :
  let RT := ExampleRuntime.make ExampleRuntime.no_files in
  cell "location" <$> rows (clean_table half_known).1 = [VNum NaN; VStr "Pune"] /\
  cell "votes" <$> rows (clean_table half_known).1 = [VNum NaN; VNum (Fin 12)] /\
  cell "cuisines" <$> rows (clean_table half_known).1 = [VStr "indian"; VStr "unknown"].
Proof. intros RT. repeat split; vm_compute; reflexivity. Qed.

(** C6 (the code departs from it). The renamed source [same_city] has a
    location column and no name column; its two records share the location
    and differ in cuisines, and only the first is left after cleaning. *)
Theorem C6_one_key_column_still_deduplicates :
  let RT := ExampleRuntime.make ExampleRuntime.no_files in
  has_column "name" (normalized same_city) = false /\
  has_column "location" (normalized same_city) = true /\
  length (rows same_city) = 2%nat /\
  cell "cuisines" <$> rows (clean_table same_city).1 = [VStr "indian"].
Proof. intros RT. repeat split; vm_compute; reflexivity. Qed.

Lemma C7_absent_cuisines_primary_cuisine_witness :
  let RT := ExampleRuntime.make ExampleRuntime.no_files in
  all_cells "primary_cuisine" (eq (VStr "Unknown")) (clean_table no_cuisines).1.
Proof.
  intros RT. apply (@C7_absent_cuisines_primary_cuisine RT no_cuisines).
  vm_compute. reflexivity.
Defined.

Lemma C5_load_retries_once_then_fails_witness :
  let RT := ExampleRuntime.make undecodable in
  load_and_clean_data "zomato.csv"
  = (Raise (mkExn UnicodeDecodeError "invalid continuation byte"),
     [ReadCsv "zomato.csv" "latin1"; ReadCsv "zomato.csv" "iso-8859-1"]).
Proof.
  intros RT.
  apply (proj1 (@C5_load_retries_once_then_fails RT "zomato.csv")
           (mkExn UnicodeDecodeError "invalid continuation byte") eq_refl eq_refl).
  reflexivity.
Defined.

(** C5 (as stated) fails: the file is read at the first attempt, and the
    call still ends with an exception.  The source [two_ratings] has the
    columns "Aggregate rating" and "rating"; the first is renamed to
    "rating", and [pd.to_numeric] is given the two columns of that name. *)
Lemma C5_counterexample :
  let RT := ExampleRuntime.make (always two_ratings) in
  read_csv "zomato.csv" "latin1" = Return two_ratings /\
  exists e ev,
    load_and_clean_data "zomato.csv" = (Raise e, ev) /\
    exn_kind_of e = TypeError /\
    List.filter is_read ev = [ReadCsv "zomato.csv" "latin1"].
Proof.
  intros RT. split; [reflexivity|].
  exists (mkExn TypeError "arg must be a list, tuple, 1-d array, or Series"),
         (load_and_clean_data "zomato.csv").2.
  repeat split; vm_compute; reflexivity.
Qed.

Lemma C2_rerank_same_strategy_same_ranking_witness :
  let RT := ExampleRuntime.make ExampleRuntime.no_files in
  let cleaned := (clean_table sample_source).1 in
  exists (st st' : session_state) (hB hC : heap) (r2 : ref) (top : frame),
    main_submit 0%nat ["Italian"] "high" "bangalore" "A: Rating-heavy" 10 [cleaned]
      = (Return st, hB) /\
    st_recommendations st = Some 4%nat /\
    hB !! 4%nat = Some top /\
    main_rerank st "A: Rating-heavy" 10 hB = (Return st', hC) /\
    st_recommendations st' = Some r2 /\
    hC !! r2 = Some top.
Proof.
  intros RT cleaned.
  apply (@C2_rerank_same_strategy_same_ranking RT [cleaned]
           (filter_and_rank_restaurants (Some 0%nat) ["Italian"] "high" "bangalore"
              "A: Rating-heavy" 10 [cleaned]).2
           0%nat 4%nat cleaned).
  - reflexivity.
  - vm_compute. reflexivity.
Defined.

(** ** The ranked table *)

Lemma num_geb_total (a b : num) : num_geb a b = false -> num_geb b a = true.
Proof.
  destruct a as [|p], b as [|q]; cbn; try congruence.
  intros H. apply Qle_bool_iff. apply Qlt_le_weak, Qnot_le_lt.
  intros Hle. apply Qle_bool_iff in Hle. congruence.
Qed.

Lemma num_geb_trans (a b c : num) :
  num_geb a b = true -> num_geb b c = true -> num_geb a c = true.
Proof.
  destruct a as [|p], b as [|q], c as [|r]; cbn; try congruence.
  rewrite !Qle_bool_iff. intros H1 H2. eapply Qle_trans; eassumption.
Qed.

Lemma insert_desc_perm (r : gmap string value) (l : list (gmap string value)) :
  insert_desc r l ≡ₚ r :: l.
Proof.
  induction l as [|y l IH]; cbn; [reflexivity|].
  destruct (num_geb _ _); [reflexivity|]. rewrite IH. apply Permutation_swap.
Qed.

Lemma sort_values_desc_perm (l : list (gmap string value)) :
  foldr insert_desc [] l ≡ₚ l.
Proof.
  induction l as [|r l IH]; cbn; [reflexivity|].
  rewrite insert_desc_perm, IH. reflexivity.
Qed.

Lemma insert_desc_sorted (r : gmap string value) (l : list (gmap string value)) :
  descending l -> descending (insert_desc r l).
Proof.
  unfold descending. induction 1 as [|y l Hl IH Hy]; cbn.
  - constructor; constructor.
  - destruct (num_geb (score_of r) (score_of y)) eqn:E.
    + constructor; [constructor; assumption|].
      constructor; [exact E|].
      eapply Forall_impl; [exact Hy|]. intros z Hz. cbn in Hz.
      eapply num_geb_trans; eassumption.
    + constructor; [exact IH|].
      rewrite insert_desc_perm. constructor; [|exact Hy].
      apply num_geb_total. exact E.
Qed.

Lemma sort_values_desc_sorted (l : list (gmap string value)) :
  descending (foldr insert_desc [] l).
Proof.
  induction l as [|r l IH]; cbn; [constructor|]. apply insert_desc_sorted. exact IH.
Qed.

Lemma descending_take (n : nat) (l : list (gmap string value)) :
  descending l -> descending (take n l).
Proof.
  unfold descending. intros H. revert n.
  induction H as [|y l Hl IH Hy]; intros [|n]; cbn; try constructor.
  - apply IH.
  - apply Forall_take. exact Hy.
Qed.

Lemma descending_head (n : Z) (f : frame) :
  descending (rows f) -> descending (rows (head n f)).
Proof.
  intros H. unfold head. cbn [rows]. destruct (0 <=? n)%Z; apply descending_take; exact H.
Qed.

Lemma score_of_insert_explanation (v : value) (r : gmap string value) :
  score_of (<["explanation" := v]> r) = score_of r.
Proof. unfold score_of. rewrite cell_insert_ne by discriminate. reflexivity. Qed.

Lemma descending_assign_explanation (ex : list value) (l : list (gmap string value)) :
  descending l -> descending (zip_with (fun r v => <["explanation" := v]> r) l ex).
Proof.
  unfold descending. intros H. revert ex.
  induction H as [|y l Hl IH Hy]; intros [|v ex]; cbn; try constructor.
  - apply IH.
  - clear IH Hl. revert ex. induction Hy as [|z l Hz Hy IH]; intros [|w ex]; cbn;
      constructor.
    + rewrite !score_of_insert_explanation. exact Hz.
    + apply IH.
Qed.

Lemma Forall_zip_with_l {A B C} (P : C -> Prop) (g : A -> B -> C) (l : list A) (k : list B) :
  Forall (fun a => forall b, P (g a b)) l -> Forall P (zip_with g l k).
Proof.
  intros H. revert k. induction H as [|a l Ha _ IH]; intros [|b k]; cbn; constructor; auto.
Qed.

Lemma rows_head_sublist (n : Z) (f : frame) : rows (head n f) `sublist_of` rows f.
Proof. unfold head. cbn [rows]. destruct (0 <=? n)%Z; apply sublist_take. Qed.

Lemma length_rows_head (n : Z) (f : frame) :
  (0 <= n)%Z -> length (rows (head n f)) = Nat.min (Z.to_nat n) (length (rows f)).
Proof.
  intros H. unfold head. cbn [rows]. destruct (Z.leb_spec 0 n); [|lia]. apply length_take.
Qed.

Section Ranked.
Context `{RT : Runtime}.

(** What a call that returns has done: filtered, scored, sorted, cut and
    explained. *)
Lemma run_returns (h h' : heap) (df r : ref) (f : frame)
    (cuisines : list string) (budget location strategy : string) (top_n : Z) :
  h !! df = Some f ->
  filter_and_rank_restaurants (Some df) cuisines budget location strategy top_n h
    = (Return r, h') ->
  exists (ff : frame) (score ex : list value),
    filter_stage f cuisines budget location = Return ff /\
    score_column strategy ff = Return score /\
    length score = length (rows ff) /\
    length ex = length (rows (head top_n (sort_values_desc (assign_column "score" score ff)))) /\
    h' !! r = Some (assign_column "explanation" ex
                      (head top_n (sort_values_desc (assign_column "score" score ff)))).
Proof.
  intros Hdf Hrun. rewrite (filter_and_rank_run h df f) in Hrun by exact Hdf.
  unfold filter_stage.
  destruct (build_conditions f _ budget _) as [conditions|e]; [|discriminate].
  cbn zeta in Hrun. cbn [obind].
  destruct (score_column strategy _) as [score|e] eqn:Hsc; [|discriminate].
  destruct (for_each _ _) as [ex|e] eqn:Hex; [|discriminate].
  inversion Hrun; subst. exists (select_all conditions f), score, ex.
  split; [reflexivity|]. split; [exact Hsc|].
  split; [eapply score_column_length; exact Hsc|].
  split; [eapply for_each_length; exact Hex|]. apply lookup_new.
Qed.

(** The rows that pass the filter are rows of the table, in their order. *)
Lemma filter_stage_sublist (f ff : frame) (cuisines : list string) (budget location : string) :
  filter_stage f cuisines budget location = Return ff ->
  columns ff = columns f /\ rows ff `sublist_of` rows f.
Proof.
  unfold filter_stage. destruct (build_conditions f _ budget _) as [conditions|e];
    [|discriminate].
  cbn. intros H. inversion H; subst. split; [apply columns_select_all|].
  rewrite rows_select_all. generalize (rows f) as l. intros l.
  induction l as [|a l IH]; cbn; [constructor|].
  destruct (forallb _ _); [apply sublist_skip|apply sublist_cons]; exact IH.
Qed.

(** The returned table is in descending order of score. *)
Theorem ranked_descending (h h' : heap) (df r : ref) (f : frame)
    (cuisines : list string) (budget location strategy : string) (top_n : Z) :
  h !! df = Some f ->
  filter_and_rank_restaurants (Some df) cuisines budget location strategy top_n h
    = (Return r, h') ->
  exists top, h' !! r = Some top /\ descending (rows top).
Proof.
  intros Hdf Hrun.
  destruct (run_returns _ _ _ _ _ _ _ _ _ _ Hdf Hrun) as (ff & score & ex & _ & _ & _ & _ & Htop).
  eexists. split; [exact Htop|]. unfold assign_column at 1. cbn [rows].
  apply descending_assign_explanation, descending_head.
  unfold sort_values_desc. cbn [rows]. apply sort_values_desc_sorted.
Qed.

(** The returned table has [top_n] records, or all that passed the filter
    when they are fewer. *)
Theorem ranked_size (h h' : heap) (df r : ref) (f : frame)
    (cuisines : list string) (budget location strategy : string) (top_n : Z) :
  h !! df = Some f ->
  (0 <= top_n)%Z ->
  filter_and_rank_restaurants (Some df) cuisines budget location strategy top_n h
    = (Return r, h') ->
  exists top ff,
    h' !! r = Some top /\
    filter_stage f cuisines budget location = Return ff /\
    length (rows top) = Nat.min (Z.to_nat top_n) (length (rows ff)).
Proof.
  intros Hdf Hn Hrun.
  destruct (run_returns _ _ _ _ _ _ _ _ _ _ Hdf Hrun)
    as (ff & score & ex & Hff & _ & Hlen & Hex & Htop).
  eexists _, ff. split; [exact Htop|]. split; [exact Hff|].
  unfold assign_column at 1. cbn [rows]. rewrite length_zip_with, Hex, Nat.min_id.
  rewrite length_rows_head by exact Hn. unfold sort_values_desc. cbn [rows].
  rewrite sort_values_desc_perm. unfold assign_column. cbn [rows].
  rewrite length_zip_with. lia.
Qed.

(** Every returned record is a record of the table that passed the filter,
    with a score and an explanation put on it. *)
Theorem ranked_members (h h' : heap) (df r : ref) (f : frame)
    (cuisines : list string) (budget location strategy : string) (top_n : Z) :
  h !! df = Some f ->
  filter_and_rank_restaurants (Some df) cuisines budget location strategy top_n h
    = (Return r, h') ->
  exists top ff,
    h' !! r = Some top /\
    filter_stage f cuisines budget location = Return ff /\
    Forall (fun row => exists r0 s e,
                r0 ∈ rows f /\ r0 ∈ rows ff /\
                row = <["explanation" := e]> (<["score" := s]> r0))
           (rows top).
Proof.
  intros Hdf Hrun.
  destruct (run_returns _ _ _ _ _ _ _ _ _ _ Hdf Hrun)
    as (ff & score & ex & Hff & _ & _ & _ & Htop).
  destruct (filter_stage_sublist _ _ _ _ _ Hff) as [_ Hsub].
  eexists _, ff. split; [exact Htop|]. split; [exact Hff|].
  unfold assign_column at 1. cbn [rows]. apply Forall_zip_with_l.
  eapply Forall_sublist_of; [apply rows_head_sublist|].
  unfold sort_values_desc. cbn [rows]. rewrite sort_values_desc_perm.
  unfold assign_column. cbn [rows]. apply Forall_zip_with_l.
  apply Forall_forall. intros r0 Hr0 s e. exists r0, s, e.
  split; [|split; [exact Hr0|reflexivity]].
  eapply elem_of_sublist; eassumption.
Qed.

End Ranked.

(** ** When the ranking raises, and when it cannot *)

Lemma for_each_raises {A B} (f : A -> outcome B) (K : exn -> Prop) (l : list A) :
  (forall a e, f a = Raise e -> K e) ->
  Exists (fun a => exists e, f a = Raise e) l ->
  exists e, for_each f l = Raise e /\ K e.
Proof.
  intros HK. induction l as [|a l IH]; intros Hex; [inversion Hex|].
  cbn. destruct (f a) as [b|e] eqn:E; cbn.
  - destruct IH as (e & He & HKe).
    + inversion Hex as [? ? [e He]|]; subst; [congruence|assumption].
    + rewrite He. cbn. eauto.
  - exists e. split; [reflexivity|]. eapply HK. exact E.
Qed.

Lemma for_each_returns {A B} (f : A -> outcome B) (l : list A) :
  Forall (fun a => exists b, f a = Return b) l -> exists bs, for_each f l = Return bs.
Proof.
  induction 1 as [|a l [b Hb] _ [bs IH]]; cbn; [eauto|].
  rewrite Hb, IH. cbn. eauto.
Qed.

Lemma vote_signal_type_error (v : value) (e : exn) :
  vote_signal v = Raise e -> exn_kind_of e = TypeError.
Proof.
  unfold vote_signal. destruct (notnull v); [|discriminate].
  destruct v; intros H; inversion H; reflexivity.
Qed.

Lemma has_column_select_all (c : string) (conditions : list (gmap string value -> bool))
    (f : frame) :
  has_column c (select_all conditions f) = has_column c f.
Proof. apply has_column_ext, columns_select_all. Qed.

Section Raises.
Context `{RT : Runtime}.

Lemma filter_stage_conditions (f ff : frame) (cuisines : list string) (budget location : string) :
  filter_stage f cuisines budget location = Return ff ->
  exists conditions,
    build_conditions f (py_lower <$> cuisines) budget (py_lower location) = Return conditions /\
    ff = select_all conditions f.
Proof.
  unfold filter_stage. destruct (build_conditions f _ budget _) as [conditions|e];
    [|discriminate].
  cbn. intros H. inversion H. eauto.
Qed.

(** A table without the normalised rating cannot be ranked: the call
    raises [KeyError] for that column; so it does for the votes column, when
    the ratings of the filtered records are numbers. *)
Theorem missing_score_input_raises_key_error (h : heap) (df : ref) (f ff : frame)
    (cuisines : list string) (budget location strategy : string) (top_n : Z) :
  h !! df = Some f ->
  filter_stage f cuisines budget location = Return ff ->
  (has_column "normalized_rating" f = false ->
   (filter_and_rank_restaurants (Some df) cuisines budget location strategy top_n h).1
   = Raise (mkExn KeyError "normalized_rating")) /\
  (has_column "normalized_rating" f = true ->
   Forall (fun r => exists n, cell "normalized_rating" r = VNum n) (rows ff) ->
   has_column "votes" f = false ->
   (filter_and_rank_restaurants (Some df) cuisines budget location strategy top_n h).1
   = Raise (mkExn KeyError "votes")).
Proof.
  intros Hdf Hff. destruct (filter_stage_conditions _ _ _ _ _ Hff) as (conditions & Hb & ->).
  rewrite (filter_and_rank_run h df f) by exact Hdf. rewrite Hb. cbn zeta.
  unfold score_column, weighted_score, get_column. rewrite !has_column_select_all.
  split.
  - intros H. rewrite H. cbn. destruct (String.eqb strategy _); reflexivity.
  - intros H1 Hnum H2. rewrite H1, H2. cbn.
    assert (Hs : forall w, for_each (scale w) (cell "normalized_rating" <$> rows (select_all conditions f))
                           = Return ((fun v => num_map2 Qmult (as_num v) (Fin w))
                                       <$> (cell "normalized_rating" <$> rows (select_all conditions f)))).
    { intros w. apply for_each_total, Forall_fmap.
      eapply Forall_impl; [exact Hnum|]. intros r [n Hn]. cbn. rewrite Hn. reflexivity. }
    rewrite !Hs. cbn. destruct (String.eqb strategy _); reflexivity.
Qed.

(** A text in the votes of a filtered record makes the call raise
    [TypeError]: votes are compared with 1000 as they are. *)
Theorem text_votes_raise_type_error (h : heap) (df : ref) (f ff : frame)
    (cuisines : list string) (budget location strategy : string) (top_n : Z) :
  h !! df = Some f ->
  filter_stage f cuisines budget location = Return ff ->
  has_column "normalized_rating" f = true ->
  has_column "votes" f = true ->
  Forall (fun r => exists n, cell "normalized_rating" r = VNum n) (rows ff) ->
  Exists (fun r => exists s, cell "votes" r = VStr s) (rows ff) ->
  exists e,
    (filter_and_rank_restaurants (Some df) cuisines budget location strategy top_n h).1
    = Raise e /\ exn_kind_of e = TypeError.
Proof.
  intros Hdf Hff H1 H2 Hnum Htext.
  destruct (filter_stage_conditions _ _ _ _ _ Hff) as (conditions & Hb & ->).
  rewrite (filter_and_rank_run h df f) by exact Hdf. rewrite Hb. cbn zeta.
  assert (Hw : forall w1 w2, exists e,
             weighted_score w1 w2 (select_all conditions f) = Raise e /\
             exn_kind_of e = TypeError).
  { intros w1 w2. unfold weighted_score, get_column.
    rewrite !has_column_select_all, H1, H2. cbn.
    rewrite (for_each_total (scale w1) (fun v => num_map2 Qmult (as_num v) (Fin w1))).
    2:{ apply Forall_fmap. eapply Forall_impl; [exact Hnum|].
        intros r [n Hn]. cbn. rewrite Hn. reflexivity. }
    cbn.
    destruct (for_each_raises vote_signal (fun e => exn_kind_of e = TypeError)
                (cell "votes" <$> rows (select_all conditions f)) vote_signal_type_error)
      as (e & He & Hk).
    { apply Exists_fmap. eapply Exists_impl; [exact Htext|].
      intros r [s Hs]. cbn. rewrite Hs. eexists. reflexivity. }
    rewrite He. cbn. eauto. }
  unfold score_column. destruct (String.eqb strategy _).
  - destruct (Hw 0.8%Q 0.2%Q) as (e & -> & Hk). eauto.
  - destruct (Hw 0.5%Q 0.5%Q) as (e & -> & Hk). eauto.
Qed.

(** When no record passes the filter the call returns an empty table; it
    does not raise. *)
Theorem no_match_returns_empty_table (h : heap) (df : ref) (f ff : frame)
    (cuisines : list string) (budget location strategy : string) (top_n : Z) :
  h !! df = Some f ->
  filter_stage f cuisines budget location = Return ff ->
  rows ff = [] ->
  has_column "normalized_rating" f = true ->
  has_column "votes" f = true ->
  exists r h' top,
    filter_and_rank_restaurants (Some df) cuisines budget location strategy top_n h
      = (Return r, h') /\
    h' !! r = Some top /\ rows top = [].
Proof.
  intros Hdf Hff Hrows H1 H2.
  destruct (filter_stage_conditions _ _ _ _ _ Hff) as (conditions & Hb & ->).
  rewrite (filter_and_rank_run h df f) by exact Hdf. rewrite Hb. cbn zeta.
  assert (Hsc : score_column strategy (select_all conditions f) = Return []).
  { unfold score_column, weighted_score, get_column.
    rewrite !has_column_select_all, H1, H2, Hrows. destruct (String.eqb strategy _); reflexivity. }
  rewrite Hsc.
  assert (Ht : rows (head top_n (sort_values_desc
                                   (assign_column "score" [] (select_all conditions f)))) = []).
  { unfold head, sort_values_desc, assign_column. cbn [rows]. rewrite Hrows. cbn.
    destruct (0 <=? top_n)%Z; apply take_nil. }
  rewrite Ht. cbn [for_each].
  eexists _, _, _. split; [reflexivity|]. split; [apply lookup_new|].
  unfold assign_column at 1. cbn [rows]. rewrite Ht. reflexivity.
Qed.

End Raises.

(** ** Re-ranking under another strategy *)

Lemma zip_with_insert_over (c : string) (rs : list (gmap string value)) (vs ws : list value) :
  length vs = length rs ->
  zip_with (fun r v => <[c := v]> r) (zip_with (fun r v => <[c := v]> r) rs vs) ws
  = zip_with (fun r v => <[c := v]> r) rs ws.
Proof.
  revert vs ws. induction rs as [|r rs IH]; intros [|v vs] [|w ws] Hlen; cbn in *;
    try reflexivity; try discriminate.
  rewrite insert_insert_eq, IH by lia. reflexivity.
Qed.

Lemma assign_column_over (c : string) (vs ws : list value) (df : frame) :
  length vs = length (rows df) ->
  assign_column c ws (assign_column c vs df) = assign_column c ws df.
Proof.
  intros Hlen. unfold assign_column at 1. rewrite has_column_assign, String.eqb_refl, orb_true_r.
  unfold assign_column. cbn [columns rows]. rewrite zip_with_insert_over by exact Hlen.
  reflexivity.
Qed.

Section RerankAny.
Context `{RT : Runtime}.

(** The table that [main] keeps after a first ranking is ranked, under any
    strategy, as the original table is. *)
Lemma kept_table_ranks_alike (h hA : heap) (df r1 : ref) (f : frame)
    (cuisines : list string) (budget location strategy : string) (top_n : Z) :
  h !! df = Some f ->
  filter_and_rank_restaurants (Some df) cuisines budget location strategy top_n h
    = (Return r1, hA) ->
  exists conditions f',
    build_conditions f (py_lower <$> cuisines) budget (py_lower location)
      = Return conditions /\
    hA !! df = Some f' /\
    build_conditions f' (py_lower <$> cuisines) budget (py_lower location)
      = Return conditions /\
    forall s' score',
      score_column s' (select_all conditions f) = Return score' ->
      score_column s' (select_all conditions (select_all conditions f')) = Return score' /\
      assign_column "score" score' (select_all conditions (select_all conditions f'))
      = assign_column "score" score' (select_all conditions f).
Proof.
  intros Hdf Hrun.
  pose proof (lookup_lt_Some _ _ _ Hdf) as Hlt.
  rewrite (filter_and_rank_run h df f) in Hrun by exact Hdf.
  destruct (build_conditions f _ budget _) as [conditions|e] eqn:Hb; [|discriminate].
  cbn zeta in Hrun.
  destruct (score_column strategy _) as [score|e] eqn:Hsc; [|discriminate].
  destruct (for_each _ _) as [ex|e] eqn:Hex; [|discriminate].
  inversion Hrun; subst r1 hA; clear Hrun Hex.
  destruct conditions as [|c cs].
  - cbn [select_all foldl filter_steps filtered_ref] in *. rewrite app_nil_r in *.
    pose proof (score_column_length _ _ _ Hsc) as Hlen.
    apply build_conditions_nil in Hb as Hcols. destruct Hcols as (H1 & H2 & H3).
    exists [], (assign_column "score" score f).
    split; [reflexivity|]. split.
    { rewrite lookup_app_l by (rewrite length_insert; exact Hlt).
      apply list_lookup_insert_eq. exact Hlt. }
    split.
    { rewrite <- Hb. apply build_conditions_ext; rewrite has_column_assign;
        [rewrite H1|rewrite H2|rewrite H3]; reflexivity. }
    intros s' score' Hs'. cbn [select_all foldl]. split.
    + rewrite score_column_assign_score by exact Hlen. exact Hs'.
    + apply assign_column_over. exact Hlen.
  - set (conditions := c :: cs) in *.
    assert (Hfl : length h <= filtered_ref conditions df h) by (cbn; lia).
    exists conditions, f. split; [reflexivity|]. split.
    { rewrite lookup_app_l.
      - rewrite list_lookup_insert_ne by lia. rewrite lookup_app_l by exact Hlt. exact Hdf.
      - rewrite length_insert, length_app. lia. }
    split; [exact Hb|]. intros s' score' Hs'. rewrite select_all_twice. auto.
Qed.

(** Re-ranking the kept table under a new strategy returns the table that
    ranking the original data under the new strategy returns, and records the
    new strategy in the preferences. *)
Theorem rerank_is_fresh_ranking (h hA hX : heap) (df r1 rX : ref) (f : frame)
    (cuisines : list string) (budget location strategy new_strategy : string) (top_n : Z) :
  h !! df = Some f ->
  filter_and_rank_restaurants (Some df) cuisines budget location strategy top_n h
    = (Return r1, hA) ->
  filter_and_rank_restaurants (Some df) cuisines budget location new_strategy top_n h
    = (Return rX, hX) ->
  exists (st st' : session_state) (hB hC : heap) (r2 : ref) (top : frame),
    main_submit df cuisines budget location strategy top_n h = (Return st, hB) /\
    main_rerank st new_strategy top_n hB = (Return st', hC) /\
    st_recommendations st' = Some r2 /\
    pref_strategy <$> st_preferences st' = Some new_strategy /\
    hC !! r2 = Some top /\
    hX !! rX = Some top.
Proof.
  intros Hdf Hrun HrunX.
  destruct (kept_table_ranks_alike _ _ _ _ _ _ _ _ _ _ Hdf Hrun)
    as (conditions & f' & Hb & Hdf' & Hb' & Halike).
  (* the fresh ranking under the new strategy *)
  rewrite (filter_and_rank_run h df f) in HrunX by exact Hdf.
  rewrite Hb in HrunX. cbn zeta in HrunX.
  destruct (score_column new_strategy _) as [score'|e] eqn:Hsc'; [|discriminate].
  destruct (for_each _ _) as [ex|e] eqn:Hex; [|discriminate].
  inversion HrunX; subst rX hX; clear HrunX.
  destruct (Halike new_strategy score' Hsc') as [Hsc2 Hscored].
  pose proof (filtered_lookup conditions df f' hA Hdf') as Hfl.
  set (hB := hA ++ filter_steps conditions f') in *.
  set (fl := filtered_ref conditions df hA) in *.
  set (st := mkSession (Some r1) (Some (mkPreferences cuisines budget location strategy))
                       (Some fl)).
  assert (Hsubmit : main_submit df cuisines budget location strategy top_n h
                    = (Return st, hB)).
  { unfold main_submit. rewrite bind_run, Hrun.
    rewrite bind_run, (deref_run _ _ _ Hdf'). rewrite bind_run. unfold lift at 1.
    rewrite Hb'. rewrite bind_run, (apply_conditions_run conditions df f' hA Hdf').
    reflexivity. }
  pose proof (filter_and_rank_run hB fl (select_all conditions f')
                cuisines budget location new_strategy top_n Hfl) as Hrun2.
  rewrite (build_conditions_ext f' (select_all conditions f')) in Hrun2
    by (apply has_column_ext, columns_select_all).
  rewrite Hb' in Hrun2. cbn zeta in Hrun2.
  rewrite Hsc2, Hscored, Hex in Hrun2.
  eexists st, _, hB, _, _, _.
  split; [exact Hsubmit|]. split.
  { unfold main_rerank. cbn [st st_recommendations st_preferences st_filtered_df
                               pref_cuisines pref_budget pref_location].
    rewrite bind_run, Hrun2. reflexivity. }
  split; [reflexivity|]. split; [reflexivity|].
  split; apply lookup_new.
Qed.

End RerankAny.

(** ** Derived features of a cleaned record *)

Lemma clip_range (q : Q) : (1 <= Qmin (Qmax q 1) 5 /\ Qmin (Qmax q 1) 5 <= 5)%Q.
Proof.
  destruct (Q.max_spec q 1) as [[H1 H2]|[H1 H2]], (Q.min_spec (Qmax q 1) 5) as [[H3 H4]|[H3 H4]];
    rewrite ?H4, ?H2 in *; split; lra.
Qed.

Lemma clip_inside (q : Q) : (1 <= q)%Q -> (q <= 5)%Q -> (Qmin (Qmax q 1) 5 == q)%Q.
Proof.
  intros Hlo Hhi.
  destruct (Q.max_spec q 1) as [[H1 H2]|[H1 H2]], (Q.min_spec (Qmax q 1) 5) as [[H3 H4]|[H3 H4]];
    rewrite ?H4, ?H2 in *; lra.
Qed.

Section Derived.
Context `{RT : Runtime}.

Lemma feature_engineering_rows (f : frame) :
  rows (feature_engineering f)
  = (fun r => <["normalized_rating" := VNum (clip 1 5 (as_num (cell "rating" r)))]>
                (<["primary_cuisine" := primary_cuisine_of (cell "cuisines" r)]>
                   (<["cost_category" := VStr (categorize_cost (cell "cost" r))]> r)))
      <$> rows f.
Proof.
  unfold feature_engineering, set_column. cbn [rows]. rewrite <- !list_fmap_compose.
  apply list_fmap_ext. intros i r _. cbn.
  rewrite !cell_insert_ne by discriminate. reflexivity.
Qed.

Lemma feature_engineering_derived (f : frame) :
  all_cells "rating" is_number f ->
  all_cells "cost" is_number f ->
  Forall derived_from_fields (rows (feature_engineering f)).
Proof.
  intros Hr Hc. rewrite feature_engineering_rows. apply Forall_fmap.
  unfold all_cells in *. rewrite Forall_forall in Hr, Hc. apply Forall_forall.
  intros r Hin. destruct (Hr r Hin) as (v & Hv & rating & ->).
  destruct (Hc r Hin) as (w & Hw & cost & ->).
  exists rating, cost. cbn. unfold cell. rewrite Hv, Hw. cbn.
  rewrite !lookup_insert_ne by discriminate.
  rewrite lookup_insert_eq.
  rewrite (lookup_insert_ne _ "normalized_rating" "cost_category") by discriminate.
  rewrite (lookup_insert_ne _ "primary_cuisine" "cost_category") by discriminate.
  rewrite lookup_insert_eq. auto.
Qed.

Lemma cleaned_records_derived (df0 : frame) :
  Forall derived_from_fields (rows (clean_table df0).1).
Proof.
  rewrite clean_table_fst. apply feature_engineering_derived.
  - apply all_cells_handle_votes; [discriminate|].
    apply all_cells_handle_cuisines; [discriminate|].
    apply all_cells_handle_location; [discriminate|].
    apply all_cells_handle_cost; [discriminate|].
    apply all_cells_rating.
  - apply all_cells_handle_votes; [discriminate|].
    apply all_cells_handle_cuisines; [discriminate|].
    apply all_cells_handle_location; [discriminate|].
    apply all_cells_cost.
Qed.

(** In every cleaned table the normalised rating of a record is a number
    between 1 and 5: the record's rating when that lies between 1 and 5, else
    the nearer of 1 and 5. *)
Theorem normalized_rating_in_range (df0 : frame) :
  Forall (fun r => exists rating nr : Q,
              r !! "rating" = Some (VNum (Fin rating)) /\
              r !! "normalized_rating" = Some (VNum (Fin nr)) /\
              (1 <= nr)%Q /\ (nr <= 5)%Q /\
              ((1 <= rating)%Q -> (rating <= 5)%Q -> (nr == rating)%Q) /\
              ((rating < 1)%Q -> (nr == 1)%Q) /\
              ((5 < rating)%Q -> (nr == 5)%Q))
         (rows (clean_table df0).1).
Proof.
  eapply Forall_impl; [apply cleaned_records_derived|].
  intros r (rating & cost & Hr & _ & Hn & _).
  exists rating, (Qmin (Qmax rating 1) 5). split; [exact Hr|]. split; [exact Hn|].
  destruct (clip_range rating) as [Hlo Hhi]. split; [exact Hlo|]. split; [exact Hhi|].
  split; [apply clip_inside|].
  destruct (Q.max_spec rating 1) as [[H1 H2]|[H1 H2]],
           (Q.min_spec (Qmax rating 1) 5) as [[H3 H4]|[H3 H4]];
    rewrite ?H4, ?H2 in *; split; intros; lra.
Qed.


(** A source without a rating column gives every record the rating 3 and
    the normalised rating 3; a source without a cost column gives every
    record the cost 500 and the category "medium". *)
Theorem absent_rating_and_cost_defaults (df0 : frame) :
  (has_column "rating" (normalized df0) = false ->
   all_cells "rating" (eq (VNum (Fin 3))) (clean_table df0).1 /\
   all_cells "normalized_rating" (eq (VNum (Fin 3))) (clean_table df0).1) /\
  (has_column "cost" (normalized df0) = false ->
   all_cells "cost" (eq (VNum (Fin 500))) (clean_table df0).1 /\
   all_cells "cost_category" (eq (VStr "medium")) (clean_table df0).1).
Proof.
  split; intros H.
  - assert (Hr : all_cells "rating" (eq (VNum (Fin 3))) (clean_table df0).1).
    { rewrite clean_table_fst. apply all_cells_feature_engineering; try discriminate.
      apply all_cells_handle_votes; [discriminate|].
      apply all_cells_handle_cuisines; [discriminate|].
      apply all_cells_handle_location; [discriminate|].
      apply all_cells_handle_cost; [discriminate|].
      unfold handle_rating. rewrite has_column_before by exact H.
      apply all_cells_set_eq. reflexivity. }
    split; [exact Hr|].
    unfold all_cells in *. rewrite Forall_forall in Hr. apply Forall_forall. intros r Hin.
    destruct (Hr r Hin) as (v & Hv & <-).
    pose proof (cleaned_records_derived df0) as Hd. rewrite Forall_forall in Hd.
    destruct (Hd r Hin) as (rating & cost & Hr' & _ & Hn & _).
    rewrite Hv in Hr'. inversion Hr'; subst. eexists. split; [exact Hn|]. reflexivity.
  - assert (Hc : all_cells "cost" (eq (VNum (Fin 500))) (clean_table df0).1).
    { rewrite clean_table_fst. apply all_cells_feature_engineering; try discriminate.
      apply all_cells_handle_votes; [discriminate|].
      apply all_cells_handle_cuisines; [discriminate|].
      apply all_cells_handle_location; [discriminate|].
      unfold handle_cost. rewrite has_column_handle_rating.
      rewrite has_column_before by exact H. cbn [orb String.eqb Ascii.eqb Bool.eqb andb].
      apply all_cells_set_eq. reflexivity. }
    split; [exact Hc|].
    unfold all_cells in *. rewrite Forall_forall in Hc. apply Forall_forall. intros r Hin.
    destruct (Hc r Hin) as (v & Hv & <-).
    pose proof (cleaned_records_derived df0) as Hd. rewrite Forall_forall in Hd.
    destruct (Hd r Hin) as (rating & cost & _ & Hc' & _ & Hcat).
    rewrite Hv in Hc'. inversion Hc'; subst. eexists. split; [exact Hcat|]. reflexivity.
Qed.

End Derived.

(** ** Duplicates *)








Section Duplicates.
Context `{RT : Runtime}.



End Duplicates.

(** ** Ranking a cleaned table *)

Section RankCleaned.
Context `{RT : Runtime}.

Lemma has_column_clean_table_derived (c : string) (df0 : frame) :
  (String.eqb c "cost_category" || String.eqb c "primary_cuisine"
   || String.eqb c "normalized_rating")%bool = true ->
  has_column c (clean_table df0).1 = true.
Proof.
  intros H. rewrite clean_table_fst, has_column_feature_engineering.
  destruct (has_column c _); [reflexivity|].
  destruct (String.eqb c "cost_category"), (String.eqb c "primary_cuisine"),
    (String.eqb c "normalized_rating"); try reflexivity; discriminate.
Qed.

(** When the table has at least one of the three filter columns, the call
    leaves every object that existed before it, the table itself among them,
    exactly as it was, whether it returns or raises: the scores and
    explanations go to new frames. *)
Theorem input_not_modified_when_filtered (h : heap) (df l : ref) (f g : frame)
    (cuisines : list string) (budget location strategy : string) (top_n : Z) :
  h !! df = Some f ->
  (has_column "primary_cuisine" f || has_column "cost_category" f
   || has_column "location" f)%bool = true ->
  h !! l = Some g ->
  (filter_and_rank_restaurants (Some df) cuisines budget location strategy top_n h).2 !! l
  = Some g.
Proof.
  intros Hdf Hcol Hg. rewrite (filter_and_rank_run h df f) by exact Hdf.
  pose proof (lookup_lt_Some _ _ _ Hg) as Hlt.
  destruct (build_conditions f _ budget _) as [conditions|e] eqn:Hb; [|exact Hg].
  pose proof (build_conditions_cons _ _ _ _ _ Hb Hcol) as Hne.
  assert (Hfl : length h <= filtered_ref conditions df h).
  { destruct conditions; [contradiction|]. cbn. lia. }
  assert (H1 : (h ++ filter_steps conditions f) !! l = Some g).
  { rewrite lookup_app_l by exact Hlt. exact Hg. }
  cbn zeta. destruct (score_column strategy _) as [score|e]; [|exact H1].
  assert (H2 : (<[filtered_ref conditions df h :=
                   assign_column "score" score (select_all conditions f)]>
                  (h ++ filter_steps conditions f)) !! l = Some g).
  { rewrite list_lookup_insert_ne by lia. exact H1. }
  pose proof (lookup_lt_Some _ _ _ H2) as Hlt2.
  destruct (for_each _ _); cbn [snd]; rewrite lookup_app_l by exact Hlt2; exact H2.
Qed.

(** Ranking never changes a table that cleaning produced, whether the call
    returns or raises: such a table has the filter columns, so the scores go
    to a new frame. *)
Theorem cleaned_table_not_modified (h : heap) (df : ref) (df0 : frame)
    (cuisines : list string) (budget location strategy : string) (top_n : Z) :
  h !! df = Some (clean_table df0).1 ->
  (filter_and_rank_restaurants (Some df) cuisines budget location strategy top_n h).2 !! df
  = Some (clean_table df0).1.
Proof.
  intros Hdf. apply input_kept_when_filtered; [exact Hdf|].
  rewrite (has_column_clean_table_set "location") by reflexivity.
  apply orb_true_r.
Qed.

Lemma has_column_head_sort (c : string) (n : Z) (f : frame) :
  has_column c (head n (sort_values_desc f)) = has_column c f.
Proof. reflexivity. Qed.

Lemma cell_of_lookup (c : string) (v : value) (r : gmap string value) :
  r !! c = Some v -> cell c r = v.
Proof. intros H. unfold cell. rewrite H. reflexivity. Qed.

Lemma cleaned_votes_default (df0 : frame) :
  has_column "votes" (normalized df0) = false ->
  all_cells "votes" (eq (VNum (Fin 0))) (clean_table df0).1.
Proof.
  intros H. rewrite clean_table_fst.
  apply all_cells_feature_engineering; try discriminate.
  apply all_cells_votes_default.
  rewrite has_column_handle_cuisines, has_column_handle_location,
    has_column_handle_cost, has_column_handle_rating.
  rewrite has_column_before by exact H. reflexivity.
Qed.

(** A table cleaned from a source without a votes column can be ranked.
    Take a source whose labels stay distinct under the renaming, on which no
    step of the cleaning raises, whose location column, when it has one,
    holds a text, and of which cleaning leaves a record; when the two
    patterns of the request compile, the call returns. *)
Theorem cleaned_table_without_votes_is_ranked (h : heap) (df : ref) (df0 : frame)
    (cuisines : list string) (budget location strategy : string) (top_n : Z) :
  h !! df = Some (clean_table df0).1 ->
  distinct_labels (normalized df0) = true ->
  cleaning_error df0 = None ->
  rows (clean_table df0).1 <> [] ->
  has_column "votes" (normalized df0) = false ->
  implb (has_column "location" (normalized df0)) (holds_text "location" (normalized df0))
    = true ->
  re_compiles (Str.join "|" (py_lower <$> cuisines)) = true ->
  re_compiles (py_lower location) = true ->
  exists r h',
    filter_and_rank_restaurants (Some df) cuisines budget location strategy top_n h
    = (Return r, h').
Proof.
  intros Hdf _ _ _ Hvotes _ Hc1 Hc2.
  set (out := (clean_table df0).1) in *.
  assert (Hgood : Forall (fun r => (exists n, cell "normalized_rating" r = VNum n) /\
                                   cell "votes" r = VNum (Fin 0)) (rows out)).
  { pose proof (cleaned_records_derived df0) as Hd.
    pose proof (cleaned_votes_default df0 Hvotes) as Hv.
    unfold all_cells in Hv. fold out in Hd, Hv.
    rewrite Forall_forall in Hd, Hv. apply Forall_forall. intros r Hin.
    destruct (Hd r Hin) as (rating & cost & _ & _ & Hn & _).
    destruct (Hv r Hin) as (v & Hv' & <-).
    split; [eexists; apply cell_of_lookup; exact Hn|apply cell_of_lookup; exact Hv']. }
  assert (Hpc : has_column "primary_cuisine" out = true)
    by (apply has_column_clean_table_derived; reflexivity).
  assert (Hcc : has_column "cost_category" out = true)
    by (apply has_column_clean_table_derived; reflexivity).
  assert (Hnr : has_column "normalized_rating" out = true)
    by (apply has_column_clean_table_derived; reflexivity).
  assert (Hlo : has_column "location" out = true)
    by (apply has_column_clean_table_set; reflexivity).
  assert (Hra : has_column "rating" out = true)
    by (apply has_column_clean_table_set; reflexivity).
  assert (Hvo : has_column "votes" out = true)
    by (apply has_column_clean_table_set; reflexivity).
  clearbody out. clear Hvotes.
  rewrite (filter_and_rank_run h df out) by exact Hdf.
  unfold build_conditions, contains_condition.
  rewrite Hpc, Hcc, Hlo, Hc1, Hc2. cbn [obind app]. cbn zeta.
  match goal with
  | |- context [select_all ?cs out] => set (conditions := cs)
  end.
  assert (Hff : Forall (fun r => (exists n, cell "normalized_rating" r = VNum n) /\
                                 cell "votes" r = VNum (Fin 0))
                       (rows (select_all conditions out))).
  { rewrite rows_select_all. rewrite Forall_forall in Hgood. apply Forall_forall.
    intros r Hin. apply Hgood. apply list_elem_of_In in Hin. apply filter_In in Hin.
    apply list_elem_of_In. tauto. }
  assert (Hsc : forall w1 w2,
             weighted_score w1 w2 (select_all conditions out)
             = Return (row_score w1 w2 <$> rows (select_all conditions out))).
  { intros w1 w2. apply weighted_score_scorable.
    - rewrite has_column_select_all. exact Hnr.
    - rewrite has_column_select_all. exact Hvo.
    - eapply Forall_impl; [exact Hff|]. intros r [Hn Hv]. split; [exact Hn|].
      right. eexists. exact Hv. }
  assert (Hscore : exists score,
             score_column strategy (select_all conditions out) = Return score /\
             length score = length (rows (select_all conditions out))).
  { unfold score_column. destruct (String.eqb strategy _); rewrite Hsc; eexists;
      (split; [reflexivity|apply length_fmap]). }
  destruct Hscore as (score & -> & Hlen).
  set (scored := assign_column "score" score (select_all conditions out)).
  assert (Ht : Forall (fun r => exists n, cell "normalized_rating" r = VNum n)
                      (rows (head top_n (sort_values_desc scored)))).
  { eapply Forall_sublist_of; [apply rows_head_sublist|].
    unfold sort_values_desc. cbn [rows]. rewrite sort_values_desc_perm.
    unfold scored, assign_column. cbn [rows]. apply Forall_zip_with_l.
    eapply Forall_impl; [exact Hff|]. intros r [Hn _] s.
    rewrite cell_insert_ne by discriminate. exact Hn. }
  assert (Hcols : forall c, has_column c out = true ->
                            has_column c (head top_n (sort_values_desc scored)) = true).
  { intros c Hc. rewrite has_column_head_sort.
    unfold scored. rewrite has_column_assign, has_column_select_all, Hc. reflexivity. }
  destruct (for_each_returns
              (explanation (head top_n (sort_values_desc scored))
                           (py_lower <$> cuisines) budget strategy)
              (rows (head top_n (sort_values_desc scored))))
    as [ex Hex].
  { eapply Forall_impl; [exact Ht|]. intros r [n Hn]. unfold explanation.
    rewrite (Hcols "rating" Hra), (Hcols "normalized_rating" Hnr), (Hcols "votes" Hvo).
    rewrite Hn. cbn. eauto. }
  rewrite Hex. eauto.
Qed.

End RankCleaned.

(** ** Bounds of the score *)

Lemma vote_signal_of_range (v : value) :
  (isnull v = true \/ exists q, v = VNum (Fin q) /\ (0 <= q)%Q) ->
  (0 <= vote_signal_of v /\ vote_signal_of v <= 1)%Q.
Proof.
  intros [Hnull|(q & -> & Hq)].
  - destruct v as [|[|]|]; cbn in *; try discriminate; split; lra.
  - cbn. assert (E : (Qmin q 1000 / 1000 == Qmin q 1000 * (1 # 1000))%Q) by reflexivity.
    rewrite E. destruct (Q.min_spec q 1000) as [[H1 H2]|[H1 H2]]; rewrite H2; split; lra.
Qed.

(** Votes never outweigh the rating: with a normalised rating between 1
    and 5 and votes that are missing or not negative, the score lies between
    [0.8 * rating] and [0.8 * rating + 0.2] under "A: Rating-heavy", so
    between 0.8 and 4.2, and between [0.5 * rating] and [0.5 * rating + 0.5]
    under any other strategy, so between 0.5 and 3. *)
Theorem score_bounds (df : frame) :
  has_column "normalized_rating" df = true ->
  has_column "votes" df = true ->
  Forall (fun r => (exists nr, cell "normalized_rating" r = VNum (Fin nr) /\
                               (1 <= nr)%Q /\ (nr <= 5)%Q) /\
                   (isnull (cell "votes" r) = true \/
                    exists v, cell "votes" r = VNum (Fin v) /\ (0 <= v)%Q)) (rows df) ->
  (exists sa,
     score_column "A: Rating-heavy" df = Return sa /\
     Forall2 (fun r s => exists nr q, cell "normalized_rating" r = VNum (Fin nr) /\
                           s = VNum (Fin q) /\
                           (0.8 * nr <= q)%Q /\ (q <= 0.8 * nr + 0.2)%Q /\
                           (0.8 <= q)%Q /\ (q <= 4.2)%Q) (rows df) sa) /\
  (forall strategy : string,
     strategy <> "A: Rating-heavy" ->
     exists sb,
       score_column strategy df = Return sb /\
       Forall2 (fun r s => exists nr q, cell "normalized_rating" r = VNum (Fin nr) /\
                             s = VNum (Fin q) /\
                             (0.5 * nr <= q)%Q /\ (q <= 0.5 * nr + 0.5)%Q /\
                             (0.5 <= q)%Q /\ (q <= 3)%Q) (rows df) sb).
Proof.
  intros H1 H2 Hrows.
  assert (Hnum : Forall numeric_record (rows df)).
  { eapply Forall_impl; [exact Hrows|]. intros r [(nr & Hnr & _) Hv]. split; [eauto|].
    destruct Hv as [Hv|(v & Hv & _)]; [left|right]; eauto. }
  destruct (weighted_score_numeric 0.8 0.2 df H1 H2 Hnum) as (sa & Ha & Hsa).
  destruct (weighted_score_numeric 0.5 0.5 df H1 H2 Hnum) as (sb & Hb & Hsb).
  split.
  - exists sa. split; [exact Ha|].
    clear Hsb Ha Hb. induction Hsa as [|r s l k (nr & q & Hnr & -> & Hq) _ IH];
      constructor.
    + inversion Hrows as [|? ? [(nr' & Hnr' & Hlo & Hhi) Hv] _]; subst.
      rewrite Hnr in Hnr'. inversion Hnr'; subst nr'.
      assert (Hvs : (0 <= vote_signal_of (cell "votes" r) /\
                     vote_signal_of (cell "votes" r) <= 1)%Q).
      { apply vote_signal_of_range. destruct Hv as [Hv|(v & Hv & Hv0)]; [left|right]; eauto. }
      exists nr, q. split; [exact Hnr|]. split; [reflexivity|].
      rewrite Hq. destruct Hvs. repeat split; lra.
    + apply IH; inversion Hrows; inversion Hnum; assumption.
  - intros strategy Hs. exists sb. split; [rewrite score_column_other by exact Hs; exact Hb|].
    clear Hsa Ha Hb. induction Hsb as [|r s l k (nr & q & Hnr & -> & Hq) _ IH];
      constructor.
    + inversion Hrows as [|? ? [(nr' & Hnr' & Hlo & Hhi) Hv] _]; subst.
      rewrite Hnr in Hnr'. inversion Hnr'; subst nr'.
      assert (Hvs : (0 <= vote_signal_of (cell "votes" r) /\
                     vote_signal_of (cell "votes" r) <= 1)%Q).
      { apply vote_signal_of_range. destruct Hv as [Hv|(v & Hv & Hv0)]; [left|right]; eauto. }
      exists nr, q. split; [exact Hnr|]. split; [reflexivity|].
      rewrite Hq. destruct Hvs. repeat split; lra.
    + apply IH; inversion Hrows; inversion Hnum; assumption.
Qed.

(** ** A source without a name *)

(** A source in which no column is called "Restaurant Name",
    "restaurant_name" or "name" gives a cleaned table without a name
    column: cleaning does not make one up. *)
Theorem cleaned_table_lacks_name_without_alias `{RT : Runtime} (df0 : frame) :
  "Restaurant Name" ∉ columns df0 ->
  "restaurant_name" ∉ columns df0 ->
  "name" ∉ columns df0 ->
  has_column "name" (clean_table df0).1 = false.
Proof.
  intros H1 H2 H3. rewrite has_column_clean_table; [reflexivity|].
  apply normalized_lacks_name; assumption.
Qed.

(** ** The theorems at work on examples *)

Lemma cleaned_table_lacks_name_without_alias_witness :
  let RT := ExampleRuntime.make ExampleRuntime.no_files in
  has_column "name" (clean_table city_listing).1 = false.
Proof.
  intros RT. apply (@cleaned_table_lacks_name_without_alias RT city_listing);
    apply has_column_false; reflexivity.
Defined.


Lemma ranked_descending_witness :
  let RT := ExampleRuntime.make ExampleRuntime.no_files in
  let cleaned := (clean_table sample_source).1 in
  exists top,
    (filter_and_rank_restaurants (Some 0%nat) ["Italian"] "high" "bangalore"
       "A: Rating-heavy" 10 [cleaned]).2 !! 4%nat = Some top /\
    descending (rows top).
Proof.
  intros RT cleaned.
  apply (@ranked_descending RT [cleaned] _ 0%nat 4%nat cleaned
           ["Italian"] "high" "bangalore" "A: Rating-heavy" 10).
  - reflexivity.
  - vm_compute. reflexivity.
Defined.

Lemma ranked_size_witness :
  let RT := ExampleRuntime.make ExampleRuntime.no_files in
  let cleaned := (clean_table sample_source).1 in
  exists top ff,
    (filter_and_rank_restaurants (Some 0%nat) ["Italian"] "high" "bangalore"
       "A: Rating-heavy" 1 [cleaned]).2 !! 4%nat = Some top /\
    filter_stage cleaned ["Italian"] "high" "bangalore" = Return ff /\
    length (rows top) = Nat.min (Z.to_nat 1) (length (rows ff)).
Proof.
  intros RT cleaned.
  apply (@ranked_size RT [cleaned] _ 0%nat 4%nat cleaned
           ["Italian"] "high" "bangalore" "A: Rating-heavy" 1).
  - reflexivity.
  - lia.
  - vm_compute. reflexivity.
Defined.

Lemma ranked_members_witness :
  let RT := ExampleRuntime.make ExampleRuntime.no_files in
  let cleaned := (clean_table sample_source).1 in
  exists top ff,
    (filter_and_rank_restaurants (Some 0%nat) ["Italian"] "high" "bangalore"
       "A: Rating-heavy" 10 [cleaned]).2 !! 4%nat = Some top /\
    filter_stage cleaned ["Italian"] "high" "bangalore" = Return ff /\
    Forall (fun row => exists r0 s e,
                r0 ∈ rows cleaned /\ r0 ∈ rows ff /\
                row = <["explanation" := e]> (<["score" := s]> r0))
           (rows top).
Proof.
  intros RT cleaned.
  apply (@ranked_members RT [cleaned] _ 0%nat 4%nat cleaned
           ["Italian"] "high" "bangalore" "A: Rating-heavy" 10).
  - reflexivity.
  - vm_compute. reflexivity.
Defined.

Lemma no_match_returns_empty_table_witness :
  let RT := ExampleRuntime.make ExampleRuntime.no_files in
  let cleaned := (clean_table sample_source).1 in
  exists r h' top,
    filter_and_rank_restaurants (Some 0%nat) ["mexican"] "high" "bangalore"
      "A: Rating-heavy" 10 [cleaned] = (Return r, h') /\
    h' !! r = Some top /\ rows top = [].
Proof.
  intros RT cleaned.
  apply (@no_match_returns_empty_table RT [cleaned] 0%nat cleaned
           (mkFrame (columns cleaned) [])).
  - reflexivity.
  - vm_compute. reflexivity.
  - reflexivity.
  - apply has_column_clean_table_derived. reflexivity.
  - apply has_column_clean_table_set. reflexivity.
Defined.

Lemma missing_score_input_raises_key_error_witness :
  let RT := ExampleRuntime.make ExampleRuntime.no_files in
  (filter_and_rank_restaurants (Some 0%nat) ["thai"] "low" "" "A: Rating-heavy" 10
     [thai_place]).1
  = Raise (mkExn KeyError "normalized_rating").
Proof.
  intros RT.
  apply (proj1 (@missing_score_input_raises_key_error RT [thai_place] 0%nat thai_place
                  thai_place ["thai"] "low" "" "A: Rating-heavy" 10 eq_refl
                  ltac:(vm_compute; reflexivity))).
  reflexivity.
Defined.

Lemma text_votes_raise_type_error_witness :
  let RT := ExampleRuntime.make ExampleRuntime.no_files in
  exists e,
    (filter_and_rank_restaurants (Some 0%nat) ["thai"] "low" "pune" "B: Votes-heavy" 10
       [text_votes]).1 = Raise e /\
    exn_kind_of e = TypeError.
Proof.
  intros RT.
  apply (@text_votes_raise_type_error RT [text_votes] 0%nat text_votes text_votes).
  - reflexivity.
  - vm_compute. reflexivity.
  - reflexivity.
  - reflexivity.
  - constructor; [|constructor]. exists (Fin 4). reflexivity.
  - constructor. exists "1,200". reflexivity.
Defined.

Lemma input_not_modified_when_filtered_witness :
  let RT := ExampleRuntime.make ExampleRuntime.no_files in
  (filter_and_rank_restaurants (Some 0%nat) ["thai"] "low" "" "A: Rating-heavy" 10
     [bangalore_place; thai_place]).2 !! 1%nat = Some thai_place.
Proof.
  intros RT.
  apply (@input_not_modified_when_filtered RT [bangalore_place; thai_place] 0%nat 1%nat
           bangalore_place thai_place); reflexivity.
Defined.

Lemma cleaned_table_not_modified_witness :
  let RT := ExampleRuntime.make ExampleRuntime.no_files in
  (filter_and_rank_restaurants (Some 0%nat) ["Italian"] "high" "bangalore"
     "A: Rating-heavy" 10 [(clean_table sample_source).1]).2 !! 0%nat
  = Some (clean_table sample_source).1.
Proof.
  intros RT. apply (@cleaned_table_not_modified RT _ _ sample_source). reflexivity.
Defined.

Lemma cleaned_table_without_votes_is_ranked_witness :
  let RT := ExampleRuntime.make ExampleRuntime.no_files in
  exists r h',
    filter_and_rank_restaurants (Some 0%nat) ["Chinese"; "north indian"] "medium" "Delhi"
      "B: Votes-heavy" 10 [(clean_table city_listing).1] = (Return r, h').
Proof.
  intros RT. apply (@cleaned_table_without_votes_is_ranked RT _ _ city_listing).
  - reflexivity.
  - vm_compute. reflexivity.
  - vm_compute. reflexivity.
  - intros H. apply (f_equal length) in H. vm_compute in H. discriminate H.
  - vm_compute. reflexivity.
  - vm_compute. reflexivity.
  - vm_compute. reflexivity.
  - vm_compute. reflexivity.
Defined.

Lemma rerank_is_fresh_ranking_witness :
  let RT := ExampleRuntime.make ExampleRuntime.no_files in
  let cleaned := (clean_table sample_source).1 in
  exists (st st' : session_state) (hB hC : heap) (r2 : ref) (top : frame),
    main_submit 0%nat ["Italian"] "high" "bangalore" "A: Rating-heavy" 10 [cleaned]
      = (Return st, hB) /\
    main_rerank st "B: Votes-heavy" 10 hB = (Return st', hC) /\
    st_recommendations st' = Some r2 /\
    pref_strategy <$> st_preferences st' = Some "B: Votes-heavy" /\
    hC !! r2 = Some top /\
    (filter_and_rank_restaurants (Some 0%nat) ["Italian"] "high" "bangalore"
       "B: Votes-heavy" 10 [cleaned]).2 !! 4%nat = Some top.
Proof.
  intros RT cleaned.
  apply (@rerank_is_fresh_ranking RT [cleaned]
           (filter_and_rank_restaurants (Some 0%nat) ["Italian"] "high" "bangalore"
              "A: Rating-heavy" 10 [cleaned]).2
           _ 0%nat 4%nat 4%nat cleaned).
  - reflexivity.
  - vm_compute. reflexivity.
  - vm_compute. reflexivity.
Defined.

Lemma score_bounds_witness :
  (exists sa,
     score_column "A: Rating-heavy" two_records = Return sa /\
     Forall2 (fun r s => exists nr q, cell "normalized_rating" r = VNum (Fin nr) /\
                           s = VNum (Fin q) /\
                           (0.8 * nr <= q)%Q /\ (q <= 0.8 * nr + 0.2)%Q /\
                           (0.8 <= q)%Q /\ (q <= 4.2)%Q) (rows two_records) sa) /\
  (exists sb,
     score_column "C: Surprise me" two_records = Return sb /\
     Forall2 (fun r s => exists nr q, cell "normalized_rating" r = VNum (Fin nr) /\
                           s = VNum (Fin q) /\
                           (0.5 * nr <= q)%Q /\ (q <= 0.5 * nr + 0.5)%Q /\
                           (0.5 <= q)%Q /\ (q <= 3)%Q) (rows two_records) sb).
Proof.
  assert (H : Forall (fun r => (exists nr, cell "normalized_rating" r = VNum (Fin nr) /\
                                           (1 <= nr)%Q /\ (nr <= 5)%Q) /\
                               (isnull (cell "votes" r) = true \/
                                exists v, cell "votes" r = VNum (Fin v) /\ (0 <= v)%Q))
                     (rows two_records)).
  { constructor; [|constructor; [|constructor]].
    - split; [exists 4%Q; repeat split; discriminate|left; reflexivity].
    - split; [exists 3%Q; repeat split; discriminate|].
      right. exists 500%Q. split; [reflexivity|discriminate]. }
  destruct (score_bounds two_records eq_refl eq_refl H) as [Ha Hb].
  split; [exact Ha|]. apply Hb. discriminate.
Defined.

Lemma absent_rating_and_cost_defaults_witness :
  let RT := ExampleRuntime.make ExampleRuntime.no_files in
  (all_cells "rating" (eq (VNum (Fin 3))) (clean_table city_listing).1 /\
   all_cells "normalized_rating" (eq (VNum (Fin 3))) (clean_table city_listing).1) /\
  (all_cells "cost" (eq (VNum (Fin 500))) (clean_table city_listing).1 /\
   all_cells "cost_category" (eq (VStr "medium")) (clean_table city_listing).1).
Proof.
  intros RT.
  destruct (@absent_rating_and_cost_defaults RT city_listing) as [Hr Hc].
  split; [apply Hr|apply Hc]; vm_compute; reflexivity.
Defined.

